(** * IrisKerasCallback: a Keras notebook with TensorBoard and checkpoint callbacks

    The repository is one Jupyter notebook, [IrisKerasCallback.ipynb].  Its
    code cells are a straight-line Python script: load the Iris data, build a
    [tf.keras.Sequential] model, compile it, train it with two callbacks and
    list the files the callbacks left on disk.

    The development has five layers:
    - [Py]: the Python built-ins the script evaluates itself
      ([str.format], the integer format specification, [strftime]);
    - [Keras]: the objects the script configures (layers, loss, optimizer,
      callbacks, the arguments of [fit]) and the part of the training loop
      that drives the callbacks, as the framework documents them;
    - [Nb]: the cells of the notebook, as programs over the calls they make
      into the libraries, run against an arbitrary environment;
    - [Recorded]: the sources and outputs stored in the notebook file;
    - [Env]: a reference environment in which every call succeeds.

    The notebook's own code is in [Nb]; what the libraries do is either left
    to the environment (all statements about order and failures hold for
    every environment) or taken from [Keras] and compared with the recorded
    outputs. *)

From Stdlib Require Import ZArith NArith Ascii String DecimalString DecimalN List Lia.
From Stdlib Require Import SpecFloat QArith Sorted.
From stdpp Require Import base option list strings gmap.

#[local] Set Warnings "-clear-no-such-hyp".

Local Open Scope Z_scope.

(* ===================================================================== *)
(** ** Python built-ins *)
(* ===================================================================== *)

(** Exceptions.  [FrameworkError] stands for whatever the external libraries
    raise (bad shapes, missing directories, I/O errors); the others are the
    Python exceptions that formatting can raise. *)
Inductive exn : Type :=
| KeyError (key : string)
| IndexError
| ValueError
| TypeError
| ImportError (module : string)
| RuntimeError
| OSError
| FrameworkError (msg : string).

(** The result of evaluating an expression or a call: a value, an exception,
    or [Unmodelled] where a library feature is outside this development
    (nothing is claimed about those). *)
Inductive outcome (A : Type) : Type :=
| Ok (a : A)
| Exn (e : exn)
| Unmodelled.
Arguments Ok {A} a.
Arguments Exn {A} e.
Arguments Unmodelled {A}.

Definition obind {A B : Type} (k : A -> outcome B) (r : outcome A) : outcome B :=
  match r with
  | Ok a => k a
  | Exn e => Exn e
  | Unmodelled => Unmodelled
  end.

(** [x ← r; k] is sequencing: the first exception (or unmodelled feature)
    ends the evaluation. *)
#[global] Instance outcome_ret : MRet outcome := @Ok.
#[global] Instance outcome_bind : MBind outcome := @obind.

Module Py.

(** Python values that reach [str.format] in this notebook: [int]s, the
    [float]s of the training logs, and [str]. *)
Inductive pyval : Type :=
| PyInt (z : Z)
| PyFloat (f : spec_float)
| PyStr (s : string).

(** Decimal digits of a natural number, most significant first, no sign and
    no leading zero ([str(n)] for [n >= 0]). *)
Definition digits (n : N) : string := NilEmpty.string_of_uint (N.to_uint n).

Fixpoint repeat_char (c : ascii) (n : nat) : string :=
  match n with
  | O => EmptyString
  | S n' => String c (repeat_char c n')
  end.

(** [format(z, spec)] for an [int] and a spec of the shape [[0][width][d]].
    With the [0] flag the padding is sign-aware: zeros go between the sign and
    the digits.  Without it numbers are right-aligned with spaces. *)
Definition format_int (zero : bool) (width : nat) (z : Z) : string :=
  let body := digits (Z.abs_N z) in
  let sign := if z <? 0 then "-" else "" in
  let pad := (width - (String.length sign + String.length body))%nat in
  if zero then sign +:+ repeat_char "0" pad +:+ body
  else repeat_char " " pad +:+ sign +:+ body.

(** Reading the width out of a format spec. *)
Fixpoint read_nat (acc : nat) (s : string) : nat * string :=
  match s with
  | EmptyString => (acc, s)
  | String c rest =>
      match Ascii.is_nat c with
      | Some d => read_nat (10 * acc + d)%nat rest
      | None => (acc, s)
      end
  end.

Record spec : Type := { zero_flag : bool; width : nat; type_code : option ascii }.

(** The covered part of the format-spec mini-language: [[0][width][type]]. *)
Definition parse_spec (s : string) : option spec :=
  let '(z, s1) :=
    match s with
    | String "0"%char rest => (true, rest)
    | _ => (false, s)
    end in
  let '(w, s2) := read_nat 0 s1 in
  match s2 with
  | EmptyString => Some {| zero_flag := z; width := w; type_code := None |}
  | String t EmptyString => Some {| zero_flag := z; width := w; type_code := Some t |}
  | _ => None
  end.

Definition format_value (v : pyval) (sp : string) : outcome string :=
  match v with
  | PyInt z =>
      match parse_spec sp with
      | Some {| zero_flag := zf; width := w; type_code := None |}
      | Some {| zero_flag := zf; width := w; type_code := Some "d"%char |} =>
          Ok (format_int zf w z)
      | _ => Unmodelled
      end
  | PyFloat _ =>
      match parse_spec sp with
      | Some {| type_code := Some "d"%char |} => Exn ValueError
      | _ => Unmodelled
      end
  | PyStr s =>
      match sp with
      | EmptyString => Ok s
      | _ =>
          match parse_spec sp with
          | Some {| type_code := Some "d"%char |} => Exn ValueError
          | _ => Unmodelled
          end
      end
  end.

(** Field numbering of [str.format]: automatic ([{}]), manual ([{0}]), and
    the two cannot be mixed. *)
Inductive numbering : Type := Fresh | Auto (next : nat) | Manual.

Definition all_digits (s : string) : bool :=
  match s with
  | EmptyString => false
  | _ => match read_nat 0 s with (_, EmptyString) => true | _ => false end
  end.

Definition simple_name (s : string) : bool :=
  forallb (fun c => negb (Ascii.eqb c "." || Ascii.eqb c "[" || Ascii.eqb c "!"))
          (list_ascii_of_string s).

(** Looking a replacement field up in the positional and keyword arguments. *)
Definition lookup_field (args : list pyval) (kwargs : gmap string pyval)
    (num : numbering) (name : string) : (outcome pyval) * numbering :=
  if String.eqb name "" then
    match num with
    | Manual => (Exn ValueError, num)
    | Fresh =>
        (match args !! 0%nat with Some v => Ok v | None => Exn IndexError end,
         Auto 1)
    | Auto i =>
        (match args !! i with Some v => Ok v | None => Exn IndexError end,
         Auto (S i))
    end
  else if all_digits name then
    match num with
    | Auto _ => (Exn ValueError, num)
    | _ =>
        (match args !! fst (read_nat 0 name) with
         | Some v => Ok v
         | None => Exn IndexError
         end, Manual)
    end
  else if simple_name name then
    (match kwargs !! name with
     | Some v => Ok v
     | None => Exn (KeyError name)
     end, num)
  else (Unmodelled, num).

(** The scanner of [str.format]: literal text, [{{] and [}}] escapes, and
    replacement fields [{name}] and [{name:spec}]. *)
Inductive scan : Type :=
| Lit                                  (* literal text *)
| Open                                 (* just read an opening brace *)
| Close                                (* just read a closing brace in literal text *)
| Name (name : string)                 (* inside a field, reading its name (reversed) *)
| Spec (name : string) (sp : string).  (* reading its spec (reversed) *)

Definition emit_field (args : list pyval) (kwargs : gmap string pyval)
    (num : numbering) (name sp : string)
    (k : numbering -> outcome string) : outcome string :=
  match lookup_field args kwargs num (String.rev name) with
  | (Ok v, num') =>
      s ← format_value v (String.rev sp);
      r ← k num';
      Ok (s +:+ r)
  | (Exn e, _) => Exn e
  | (Unmodelled, _) => Unmodelled
  end.

Fixpoint format_go (args : list pyval) (kwargs : gmap string pyval)
    (num : numbering) (st : scan) (tpl : string) : outcome string :=
  match tpl with
  | EmptyString =>
      match st with
      | Lit => Ok ""
      | _ => Exn ValueError
      end
  | String c rest =>
      let lit := r ← format_go args kwargs num Lit rest; Ok (String c r) in
      match st with
      | Lit =>
          if Ascii.eqb c "{" then format_go args kwargs num Open rest
          else if Ascii.eqb c "}" then format_go args kwargs num Close rest
          else lit
      | Open =>
          if Ascii.eqb c "{" then lit
          else if Ascii.eqb c "}" then
            emit_field args kwargs num "" "" (fun n => format_go args kwargs n Lit rest)
          else if Ascii.eqb c ":" then format_go args kwargs num (Spec "" "") rest
          else format_go args kwargs num (Name (String c "")) rest
      | Close =>
          if Ascii.eqb c "}" then lit else Exn ValueError
      | Name n =>
          if Ascii.eqb c "}" then
            emit_field args kwargs num n "" (fun n' => format_go args kwargs n' Lit rest)
          else if Ascii.eqb c ":" then format_go args kwargs num (Spec n "") rest
          else if Ascii.eqb c "{" then Exn ValueError
          else format_go args kwargs num (Name (String c n)) rest
      | Spec n sp =>
          if Ascii.eqb c "}" then
            emit_field args kwargs num n sp (fun n' => format_go args kwargs n' Lit rest)
          else if Ascii.eqb c "{" then Unmodelled
          else format_go args kwargs num (Spec n (String c sp)) rest
      end
  end.

(** [tpl.format] applied to positional arguments [args] and keyword
    arguments [kwargs]. *)
Definition format (tpl : string) (args : list pyval) (kwargs : gmap string pyval)
    : outcome string :=
  format_go args kwargs Fresh Lit tpl.

(** [datetime.datetime]: the fields of a naive local time. *)
Record datetime : Type := {
  year : Z; month : Z; day : Z;
  hour : Z; minute : Z; second : Z; microsecond : Z
}.

Definition is_leap (y : Z) : bool :=
  (y mod 4 =? 0) && (negb (y mod 100 =? 0) || (y mod 400 =? 0)).

Definition days_in_month (y m : Z) : Z :=
  if m =? 2 then (if is_leap y then 29 else 28)
  else if (m =? 4) || (m =? 6) || (m =? 9) || (m =? 11) then 30
  else 31.

(** The ranges the [datetime] constructor enforces (MINYEAR = 1,
    MAXYEAR = 9999). *)
Definition valid_datetime (d : datetime) : bool :=
  (1 <=? year d) && (year d <=? 9999) &&
  (1 <=? month d) && (month d <=? 12) &&
  (1 <=? day d) && (day d <=? days_in_month (year d) (month d)) &&
  (0 <=? hour d) && (hour d <=? 23) &&
  (0 <=? minute d) && (minute d <=? 59) &&
  (0 <=? second d) && (second d <=? 59) &&
  (0 <=? microsecond d) && (microsecond d <=? 999999).

(** The [strftime] directives the notebook uses.  [%Y] is the year in
    decimal as the C library prints it, without padding: four digits from the
    year 1000 on, fewer below.  [%m %d %H %M %S] are zero-padded on two
    digits.  The format of the notebook has no directive for the
    microsecond. *)
Definition directive (d : datetime) (c : ascii) : outcome string :=
  if Ascii.eqb c "Y" then Ok (format_int false 0 (year d))
  else if Ascii.eqb c "m" then Ok (format_int true 2 (month d))
  else if Ascii.eqb c "d" then Ok (format_int true 2 (day d))
  else if Ascii.eqb c "H" then Ok (format_int true 2 (hour d))
  else if Ascii.eqb c "M" then Ok (format_int true 2 (minute d))
  else if Ascii.eqb c "S" then Ok (format_int true 2 (second d))
  else if Ascii.eqb c "%" then Ok "%"
  else Unmodelled.

(** [d.strftime(fmt)]; [pct] tells that the previous character was [%]. *)
Fixpoint strftime_go (d : datetime) (pct : bool) (fmt : string) : outcome string :=
  match fmt with
  | EmptyString => if pct then Unmodelled else Ok ""
  | String c rest =>
      if pct then
        s ← directive d c;
        r ← strftime_go d false rest;
        Ok (s +:+ r)
      else if Ascii.eqb c "%" then strftime_go d true rest
      else r ← strftime_go d false rest; Ok (String c r)
  end.

Definition strftime (d : datetime) (fmt : string) : outcome string :=
  strftime_go d false fmt.

End Py.

(* ===================================================================== *)
(** ** Keras objects *)
(* ===================================================================== *)

(** The framework is not part of the repository.  This module records what
    its documentation says about the objects the notebook configures: what a
    [Sequential] holds, how many parameters a [Dense] layer has, when the two
    callbacks write which files, and how [fit] drives the callbacks. *)
Module Keras.
Import Py.

(** *** Layers and the [Sequential] container *)

Inductive activation_fn : Type := relu | softmax | sigmoid | tanh.

(** The layer classes of [tf.keras.layers] considered here.  The notebook
    only instantiates [Dense]; in [Dense] the [activation] keyword defaults to
    [None] (the layer returns [x W + b] as it is) and [use_bias] to [True]. *)
Inductive layer : Type :=
| Dense (units : nat) (activation : option activation_fn)
        (input_shape : option (list nat))
| Activation (fn : activation_fn)
| Dropout (rate : Q).

Definition is_dense (l : layer) : bool :=
  match l with
  | Dense _ _ _ => true
  | _ => false
  end.

Inductive optimizer : Type :=
| Adam (learning_rate : Q)
| SGD (learning_rate : Q).

Inductive loss_fn : Type :=
| SparseCategoricalCrossentropy (from_logits : bool)
| CategoricalCrossentropy (from_logits : bool)
| MeanSquaredError.

Inductive metric : Type :=
| SparseCategoricalAccuracy
| Accuracy.

Definition metric_name (m : metric) : string :=
  match m with
  | SparseCategoricalAccuracy => "sparse_categorical_accuracy"
  | Accuracy => "accuracy"
  end.

Record compile_args : Type := {
  c_optimizer : optimizer;
  c_loss : loss_fn;
  c_metrics : list metric
}.

(** A [Sequential] model is the list of its layers, in the order of the
    [add] calls, and the configuration of the last [compile]. *)
Record Sequential : Type := {
  layers : list layer;
  compiled : option compile_args
}.

Definition new_Sequential : Sequential := {| layers := []; compiled := None |}.

Definition add (m : Sequential) (l : layer) : Sequential :=
  {| layers := layers m ++ [l]; compiled := compiled m |}.

Definition compile (m : Sequential) (c : compile_args) : Sequential :=
  {| layers := layers m; compiled := Some c |}.

(** The width of the model's input: the last entry of the first layer's
    [input_shape]. *)
Definition input_dim (m : Sequential) : option nat :=
  match layers m with
  | Dense _ _ (Some shape) :: _ => last shape
  | _ => None
  end.

Definition out_dim (l : layer) (n_in : nat) : nat :=
  match l with
  | Dense u _ _ => u
  | _ => n_in
  end.

(** Trainable parameters of a layer fed [n_in] features: a kernel of
    [n_in * units] weights and [units] biases for [Dense], none otherwise. *)
Definition param_count (l : layer) (n_in : nat) : nat :=
  match l with
  | Dense u _ _ => (n_in * u + u)%nat
  | _ => 0%nat
  end.

(** The rows of [model.summary()]: per layer, output width and parameter
    count. *)
Fixpoint summary_rows (ls : list layer) (n_in : nat) : list (nat * nat) :=
  match ls with
  | [] => []
  | l :: ls' => (out_dim l n_in, param_count l n_in) :: summary_rows ls' (out_dim l n_in)
  end.

Definition summary (m : Sequential) : outcome (list (nat * nat)) :=
  match input_dim m with
  | Some n => Ok (summary_rows (layers m) n)
  | None => Exn ValueError
  end.







(** The forward pass: a [Sequential] applies its layers first to last. *)
Section Forward.
Variable Tensor : Type.
Variable apply_layer : layer -> Tensor -> Tensor.

Definition forward (m : Sequential) (x : Tensor) : Tensor :=
  foldl (fun t l => apply_layer l t) x (layers m).
End Forward.

(** *** Data, callbacks and the arguments of [fit] *)

(** A numpy array: its shape and its entries in row-major order. *)
Record ndarray : Type := { shape : list nat; elems : list spec_float }.

(** What [load_iris()] returns: the feature matrix and the class labels. *)
Record Bunch : Type := { data : ndarray; target : ndarray }.

Inductive save_freq : Type :=
| EveryEpoch                  (* save_freq='epoch' *)
| EveryBatches (n : nat).     (* save_freq=n *)

(** What a callback's [on_epoch_end] hook may do to the training run. *)
Record cb_effect : Type := {
  writes : list string;       (* paths written *)
  request_stop : bool         (* sets model.stop_training *)
}.

(** The callbacks: the two classes of [tf.keras.callbacks] the notebook
    instantiates, with the keyword arguments it passes (all others keep their
    defaults; for [ModelCheckpoint], [save_best_only=False]), and a callback
    class written by the user, given by its hook. *)
Inductive callback : Type :=
| TensorBoard (log_dir : string)
| ModelCheckpoint (filepath : string) (freq : save_freq)
| UserDefined (on_epoch_end : nat -> gmap string pyval -> cb_effect).

Definition is_framework_callback (cb : callback) : bool :=
  match cb with
  | TensorBoard _ | ModelCheckpoint _ _ => true
  | UserDefined _ => false
  end.

Record fit_args : Type := {
  x : ndarray;
  y : ndarray;
  batch_size : nat;
  epochs : nat;
  verbose : nat;
  callbacks : list callback
}.

(** The [History] object [fit] returns: the epochs run (numbered from 0) and,
    per log key, the values logged at the end of each. *)
Record History : Type := {
  epoch : list nat;
  history : gmap string (list pyval)
}.

Definition History_on_epoch_end (ep : nat) (logs : list (string * pyval))
    (h : History) : History :=
  {| epoch := epoch h ++ [ep];
     history := foldl (fun acc kv => <[kv.1 := default [] (acc !! kv.1) ++ [kv.2]]> acc)
                      (history h) logs |}.

(** The line the progress logger prints at the start of an epoch when
    [verbose=1]; epochs are shown counting from 1. *)
Definition epoch_header (ep n : nat) : string :=
  "Epoch " +:+ digits (N.of_nat (ep + 1)) +:+ "/" +:+ digits (N.of_nat n).

(** The path [ModelCheckpoint] saves to at the end of epoch [ep] (counted
    from 0): [filepath.format(epoch=ep + 1, **logs)]. *)
Definition checkpoint_path (filepath : string) (ep : nat)
    (logs : list (string * pyval)) : outcome string :=
  if bool_decide ("epoch" ∈ logs.*1) then Exn TypeError
  else format filepath [] (<["epoch" := PyInt (Z.of_nat ep + 1)]> (list_to_map logs)).

(** *** The training loop, as far as the callbacks see it

    The numerical work of an epoch and the values of the metrics are left
    open ([train_epoch], [evaluate]); file operations succeed. *)
Section Training.
Variable Weights : Type.
Variable train_epoch : ndarray -> ndarray -> nat -> nat -> Weights -> Weights.
Variable evaluate : string -> ndarray -> ndarray -> Weights -> spec_float.

Record train_state : Type := {
  weights : Weights;
  files : gset string;
  stop_training : bool;
  hist : History
}.

Definition write_files (ps : list string) (st : train_state) : train_state :=
  {| weights := weights st; files := list_to_set ps ∪ files st;
     stop_training := stop_training st; hist := hist st |}.

Definition set_stop (b : bool) (st : train_state) : train_state :=
  {| weights := weights st; files := files st;
     stop_training := b || stop_training st; hist := hist st |}.

Definition on_train_begin (cb : callback) (st : train_state) : outcome train_state :=
  match cb with
  | TensorBoard d => Ok (write_files [d] st)
  | _ => Ok st
  end.

Definition on_epoch_end (cb : callback) (ep : nat) (logs : list (string * pyval))
    (st : train_state) : outcome train_state :=
  match cb with
  | TensorBoard d => Ok (write_files [d] st)
  | ModelCheckpoint fp EveryEpoch =>
      p ← checkpoint_path fp ep logs; Ok (write_files [p] st)
  | ModelCheckpoint _ (EveryBatches _) => Unmodelled
  | UserDefined hook =>
      let e := hook ep (list_to_map logs) in
      Ok (set_stop (request_stop e) (write_files (writes e) st))
  end.

(** Calling one hook of every callback, in list order. *)
Fixpoint each_callback (hook : callback -> train_state -> outcome train_state)
    (cbs : list callback) (st : train_state) : outcome train_state :=
  match cbs with
  | [] => Ok st
  | cb :: rest => st' ← hook cb st; each_callback hook rest st'
  end.

Definition epoch_logs (c : compile_args) (a : fit_args) (w : Weights)
    : list (string * pyval) :=
  (fun k => (k, PyFloat (evaluate k (x a) (y a) w)))
    <$> ("loss" :: (metric_name <$> c_metrics c)).

(** [for epoch in range(epochs)]: stop early once a callback has set
    [stop_training]; otherwise train, then run the callbacks and record the
    epoch in the history. *)
Fixpoint fit_loop (c : compile_args) (a : fit_args) (remaining ep : nat)
    (st : train_state) : outcome train_state :=
  match remaining with
  | O => Ok st
  | S r =>
      if stop_training st then Ok st
      else
        let w := train_epoch (x a) (y a) (batch_size a) ep (weights st) in
        let logs := epoch_logs c a w in
        let st1 := {| weights := w; files := files st;
                      stop_training := stop_training st; hist := hist st |} in
        st2 ← each_callback (fun cb => on_epoch_end cb ep logs) (callbacks a) st1;
        let st3 := {| weights := weights st2; files := files st2;
                      stop_training := stop_training st2;
                      hist := History_on_epoch_end ep logs (hist st2) |} in
        fit_loop c a r (S ep) st3
  end.

(** [model.fit(...)] on a file system holding [fs]. *)
Definition fit (m : Sequential) (a : fit_args) (w0 : Weights) (fs : gset string)
    : outcome train_state :=
  match compiled m with
  | None => Exn RuntimeError
  | Some c =>
      let st0 := {| weights := w0; files := fs; stop_training := false;
                    hist := {| epoch := []; history := ∅ |} |} in
      st1 ← each_callback on_train_begin (callbacks a) st0;
      fit_loop c a (epochs a) 0 st1
  end.

End Training.
Arguments weights {Weights} t.
Arguments files {Weights} t.
Arguments stop_training {Weights} t.
Arguments hist {Weights} t.

End Keras.

(* ===================================================================== *)
(** ** The notebook *)
(* ===================================================================== *)

Module Nb.
Import Py Keras.

(** *** Programs over library calls *)

(** The calls the cells make into the libraries and the system, indexed by
    the type of what they return to the script. *)
Inductive call : Type -> Type :=
| Import (module alias : string) : call unit       (* import module as alias *)
| FromImport (module name : string) : call unit    (* from module import name *)
| Magic (line : string) : call unit                (* %line *)
| SetRcParam (key : string) (value : list Z) : call unit
| PrintVersion : call unit                         (* print(tf.__version__) *)
| LoadIris : call Bunch
| NewSequential : call unit
| ModelAdd (l : layer) : call unit
| ModelSummary : call unit
| ModelCompile (c : compile_args) : call unit
| Now : call datetime                              (* dt.datetime.now() *)
| NewCallback (cb : callback) : call unit
| ModelFit (a : fit_args) : call History
| Shell (cmd : string) : call unit.                (* !cmd *)

(** Python statements, as far as this notebook and the statements about it need
    them: return, [raise], a call, and [try: body except: handler]. *)
Inductive prog (A : Type) : Type :=
| Ret (a : A)
| Raise (e : exn)
| Stuck
| Vis {X : Type} (c : call X) (k : X -> prog A)
| TryExcept {X : Type} (body : prog X) (handler : exn -> prog X)
            (k : X -> prog A).
Arguments Ret {A} a.
Arguments Raise {A} e.
Arguments Stuck {A}.
Arguments Vis {A X} c k.
Arguments TryExcept {A X} body handler k.

Fixpoint pbind {A B : Type} (k : A -> prog B) (p : prog A) : prog B :=
  match p with
  | Ret a => k a
  | Raise e => Raise e
  | Stuck => Stuck
  | Vis c k' => Vis c (fun v => pbind k (k' v))
  | TryExcept b h k' => TryExcept b h (fun v => pbind k (k' v))
  end.

#[global] Instance prog_ret : MRet prog := @Ret.
#[global] Instance prog_bind : MBind prog := @pbind.

Definition do_call {X : Type} (c : call X) : prog X := Vis c Ret.

(** The value of an expression the script evaluates itself. *)
Definition lift {A : Type} (r : outcome A) : prog A :=
  match r with
  | Ok a => Ret a
  | Exn e => Raise e
  | Unmodelled => Stuck
  end.

(** One entry of an execution trace: a call that returned, or one that
    raised. *)
Inductive entry : Type :=
| Returned {X : Type} (c : call X)
| Failed {X : Type} (c : call X) (e : exn).

(** Execution against an environment [h] that answers the calls, threading
    the environment's state. *)
Section Run.
Variable World : Type.
Variable h : forall X : Type, call X -> World -> outcome X * World.

Record result (A : Type) : Type := {
  value : outcome A;
  world : World;
  trace : list entry
}.
Arguments value {A} r.
Arguments world {A} r.
Arguments trace {A} r.

Definition after {A : Type} (tr : list entry) (r : result A) : result A :=
  {| value := value r; world := world r; trace := tr ++ trace r |}.

Fixpoint run {A : Type} (p : prog A) (w : World) : result A :=
  match p with
  | Ret a => {| value := Ok a; world := w; trace := [] |}
  | Raise e => {| value := Exn e; world := w; trace := [] |}
  | Stuck => {| value := Unmodelled; world := w; trace := [] |}
  | Vis c k =>
      match h _ c w with
      | (Ok v, w') => after [Returned c] (run (k v) w')
      | (Exn e, w') => {| value := Exn e; world := w'; trace := [Failed c e] |}
      | (Unmodelled, w') => {| value := Unmodelled; world := w'; trace := [] |}
      end
  | TryExcept b hd k =>
      let rb := run b w in
      match value rb with
      | Ok v => after (trace rb) (run (k v) (world rb))
      | Exn e =>
          let rh := run (hd e) (world rb) in
          match value rh with
          | Ok v => after (trace rb ++ trace rh) (run (k v) (world rh))
          | Exn e' => {| value := Exn e'; world := world rh; trace := trace rb ++ trace rh |}
          | Unmodelled =>
              {| value := Unmodelled; world := world rh; trace := trace rb ++ trace rh |}
          end
      | Unmodelled => {| value := Unmodelled; world := world rb; trace := trace rb |}
      end
  end.

End Run.
Arguments after {World A} tr r.
Arguments value {World A} r.
Arguments world {World A} r.
Arguments trace {World A} r.
Arguments run {World} h {A} p w.

(** *** The code cells *)

(** Cell [In 7]: imports, plotting set-up, version print. *)
Definition cell_imports : prog unit :=
  do_call (Import "numpy" "np");;
  do_call (Import "pandas" "pd");;
  do_call (Import "matplotlib.pyplot" "plt");;
  do_call (Import "datetime" "dt");;
  do_call (Import "tensorflow" "tf");;
  do_call (FromImport "sklearn.datasets" "load_iris");;
  do_call (FromImport "sklearn.metrics" "confusion_matrix");;
  do_call (Import "pydot" "pydot");;
  do_call (Magic "pylab inline");;
  do_call (SetRcParam "figure.figsize" [8; 6]);;
  do_call PrintVersion.

(** Cell [In 8]: [iris = load_iris()]. *)
Definition cell_load : prog Bunch := do_call LoadIris.

(** Cell [In 9]: the network. *)
Definition n_input : nat := 4.
Definition n_output : nat := 3.

Definition hidden1 : layer := Dense 10 (Some relu) (Some [n_input]).
Definition hidden2 : layer := Dense 10 (Some relu) None.
Definition output_layer : layer := Dense n_output None None.

Definition cell_model : prog unit :=
  do_call NewSequential;;
  do_call (ModelAdd hidden1);;
  do_call (ModelAdd hidden2);;
  do_call (ModelAdd output_layer);;
  do_call ModelSummary.

(** The model object the three [add] calls leave behind. *)
Definition model : Sequential :=
  add (add (add new_Sequential hidden1) hidden2) output_layer.

(** Cell [In 10]: [model.compile(...)]. *)
Definition compile_config : compile_args :=
  {| c_optimizer := Adam 0.01;
     c_loss := SparseCategoricalCrossentropy true;
     c_metrics := [SparseCategoricalAccuracy] |}.

Definition cell_compile : prog unit := do_call (ModelCompile compile_config).

Definition compiled_model : Sequential := compile model compile_config.

(** Cell [In 11]: the callbacks and the call of [fit]. *)
Definition stamp_format : string := "%Y-%m-%d-%H-%M-%S".
Definition checkpoint_filepath : string := "./checkpoints/model{epoch:02d}.h5".

Definition log_dir (now : datetime) : outcome string :=
  stamp ← strftime now stamp_format;
  format "./logs/{}" [PyStr stamp] ∅.

Definition fit_config (iris : Bunch) (cbs : list callback) : fit_args :=
  {| x := data iris;
     y := target iris;
     batch_size := 32;
     epochs := 50;
     verbose := 1;
     callbacks := cbs |}.

Definition cell_fit (iris : Bunch) : prog History :=
  now ← do_call Now;
  dir ← lift (log_dir now);
  let tensorboard := TensorBoard dir in
  do_call (NewCallback tensorboard);;
  let checkpoint := ModelCheckpoint checkpoint_filepath EveryEpoch in
  do_call (NewCallback checkpoint);;
  let callbacks := [tensorboard; checkpoint] in
  do_call (ModelFit (fit_config iris callbacks)).

(** Cell [In 12]: [!ls logs checkpoints]. *)
Definition cell_ls : prog unit := do_call (Shell "ls logs checkpoints").

(** The notebook, top to bottom. *)
Definition notebook : prog unit :=
  cell_imports;;
  iris ← cell_load;
  cell_model;;
  cell_compile;;
  history ← cell_fit iris;
  cell_ls.

(** *** The steps of the walkthrough *)

Inductive step : Type := Setup | LoadData | BuildModel | CompileModel | Train | Inspect.

Definition step_index (s : step) : nat :=
  match s with
  | Setup => 0 | LoadData => 1 | BuildModel => 2
  | CompileModel => 3 | Train => 4 | Inspect => 5
  end.

Definition step_of {X : Type} (c : call X) : step :=
  match c with
  | Import _ _ | FromImport _ _ | Magic _ | SetRcParam _ _ | PrintVersion => Setup
  | LoadIris => LoadData
  | NewSequential | ModelAdd _ | ModelSummary => BuildModel
  | ModelCompile _ => CompileModel
  | Now | NewCallback _ | ModelFit _ => Train
  | Shell _ => Inspect
  end.

Definition entry_step (e : entry) : step :=
  match e with
  | Returned c => step_of c
  | Failed c _ => step_of c
  end.

Definition failed (e : entry) : bool :=
  match e with
  | Returned _ => false
  | Failed _ _ => true
  end.

(** Programs without [try]. *)
Inductive try_free {A : Type} : prog A -> Prop :=
| tf_Ret (a : A) : try_free (Ret a)
| tf_Raise (e : exn) : try_free (Raise e)
| tf_Stuck : try_free Stuck
| tf_Vis {X : Type} (c : call X) (k : X -> prog A) :
    (forall v, try_free (k v)) -> try_free (Vis c k).

(** Programs whose calls, along every path, go through the steps in order,
    starting no earlier than step [s]. *)
Inductive ordered_from {A : Type} : step -> prog A -> Prop :=
| of_Ret (s : step) (a : A) : ordered_from s (Ret a)
| of_Raise (s : step) (e : exn) : ordered_from s (Raise e)
| of_Stuck (s : step) : ordered_from s Stuck
| of_Vis {X : Type} (s : step) (c : call X) (k : X -> prog A) :
    (step_index s <= step_index (step_of c))%nat ->
    (forall v, ordered_from (step_of c) (k v)) ->
    ordered_from s (Vis c k).

(** Programs all of whose calls, along every path, satisfy [P]. *)
Inductive calls_satisfy {A : Type} (P : forall X : Type, call X -> Prop)
    : prog A -> Prop :=
| cs_Ret (a : A) : calls_satisfy P (Ret a)
| cs_Raise (e : exn) : calls_satisfy P (Raise e)
| cs_Stuck : calls_satisfy P Stuck
| cs_Vis {X : Type} (c : call X) (k : X -> prog A) :
    P X c -> (forall v, calls_satisfy P (k v)) -> calls_satisfy P (Vis c k).

Definition entry_satisfies (P : forall X : Type, call X -> Prop) (e : entry) : Prop :=
  match e with
  | Returned c => P _ c
  | Failed c _ => P _ c
  end.

End Nb.

(* ===================================================================== *)
(** ** What the notebook file records *)
(* ===================================================================== *)

(** The notebook file stores, for every code cell, its source text, the
    counter of its last execution and the text it printed.  They are
    reproduced here line by line. *)
Module Recorded.

Definition dq : string := String (ascii_of_nat 34) EmptyString.
Definition tab : string := String (ascii_of_nat 9) EmptyString.

Definition execution_counts : list (option nat) :=
  [Some 7; Some 8; Some 9; Some 10; Some 11; Some 12; None]%nat.

Definition source_imports : list string :=
  [
    "# import required libraries";
    "import numpy as np";
    "import pandas as pd";
    "import matplotlib.pyplot as plt";
    "import datetime as dt";
    "import tensorflow as tf";
    "from sklearn.datasets import load_iris";
    "from sklearn.metrics import confusion_matrix";
    "import pydot";
    "";
    "%pylab inline";
    "# large figures";
    "rcParams['figure.figsize'] = 8, 6";
    "";
    "print(tf.__version__)"
  ].

Definition source_load : list string :=
  [
    "#load the data";
    "iris = load_iris()"
  ].

Definition source_model : list string :=
  [
    "#define the network model";
    "n_input = 4";
    "n_output = 3";
    "model = tf.keras.Sequential()";
    "model.add(tf.keras.layers.Dense(10, activation=tf.nn.relu, input_shape=(n_input,)))";
    "model.add(tf.keras.layers.Dense(10, activation=tf.nn.relu))";
    "model.add(tf.keras.layers.Dense(n_output))";
    "model.summary()"
  ].

Definition source_compile : list string :=
  [
    "# setup the model";
    "model.compile(";
    "    optimizer = tf.keras.optimizers.Adam(learning_rate=0.01),";
    "    loss = tf.keras.losses.SparseCategoricalCrossentropy(from_logits=True),";
    "    metrics = [tf.keras.metrics.SparseCategoricalAccuracy()]";
    ")"
  ].

Definition source_fit : list string :=
  [
    "callbacks = [";
    "    # write logs to ./logs";
    "    tf.keras.callbacks.TensorBoard(log_dir='./logs/{}'.format(dt.datetime.now().strftime(" +:+ dq +:+ "%Y-%m-%d-%H-%M-%S" +:+ dq +:+ "))),";
    "    # write checkpoints to ./checkpoints";
    "    tf.keras.callbacks.ModelCheckpoint(filepath='./checkpoints/model{epoch:02d}.h5', save_freq='epoch'),";
    "]";
    "";
    "history = model.fit(";
    "        x=iris.data,";
    "        y=iris.target,";
    "        batch_size=32,";
    "        epochs=50,";
    "        verbose=1,";
    "        callbacks=callbacks";
    "    )"
  ].

Definition source_ls : list string :=
  [
    "!ls logs checkpoints"
  ].

Definition source_empty : list string :=
  [

  ].

Definition stdout_imports : list string :=
  [
    "2.1.0"
  ].


Definition stdout_fit : list string :=
  [
    "Train on 150 samples";
    "Epoch 1/50";
    "150/150 [==============================] - 1s 3ms/sample - loss: 1.1109 - sparse_categorical_accuracy: 0.3800";
    "Epoch 2/50";
    "150/150 [==============================] - 0s 302us/sample - loss: 0.9754 - sparse_categorical_accuracy: 0.3533";
    "Epoch 3/50";
    "150/150 [==============================] - 0s 295us/sample - loss: 0.8148 - sparse_categorical_accuracy: 0.7200";
    "Epoch 4/50";
    "150/150 [==============================] - 0s 288us/sample - loss: 0.7024 - sparse_categorical_accuracy: 0.6733";
    "Epoch 5/50";
    "150/150 [==============================] - 0s 328us/sample - loss: 0.6043 - sparse_categorical_accuracy: 0.7733";
    "Epoch 6/50";
    "150/150 [==============================] - 0s 303us/sample - loss: 0.5217 - sparse_categorical_accuracy: 0.8867";
    "Epoch 7/50";
    "150/150 [==============================] - 0s 308us/sample - loss: 0.4542 - sparse_categorical_accuracy: 0.9067";
    "Epoch 8/50";
    "150/150 [==============================] - 0s 308us/sample - loss: 0.3970 - sparse_categorical_accuracy: 0.9533";
    "Epoch 9/50";
    "150/150 [==============================] - 0s 524us/sample - loss: 0.3525 - sparse_categorical_accuracy: 0.9800";
    "Epoch 10/50";
    "150/150 [==============================] - 0s 357us/sample - loss: 0.3181 - sparse_categorical_accuracy: 0.9800";
    "Epoch 11/50";
    "150/150 [==============================] - 0s 708us/sample - loss: 0.2909 - sparse_categorical_accuracy: 0.9667";
    "Epoch 12/50";
    "150/150 [==============================] - 0s 475us/sample - loss: 0.2638 - sparse_categorical_accuracy: 0.9733";
    "Epoch 13/50";
    "150/150 [==============================] - 0s 435us/sample - loss: 0.2396 - sparse_categorical_accuracy: 0.9800";
    "Epoch 14/50";
    "150/150 [==============================] - 0s 400us/sample - loss: 0.2150 - sparse_categorical_accuracy: 0.9800";
    "Epoch 15/50";
    "150/150 [==============================] - 0s 474us/sample - loss: 0.1990 - sparse_categorical_accuracy: 0.9467";
    "Epoch 16/50";
    "150/150 [==============================] - 0s 599us/sample - loss: 0.1847 - sparse_categorical_accuracy: 0.9667";
    "Epoch 17/50";
    "150/150 [==============================] - 0s 644us/sample - loss: 0.1661 - sparse_categorical_accuracy: 0.9533";
    "Epoch 18/50";
    "150/150 [==============================] - 0s 567us/sample - loss: 0.1442 - sparse_categorical_accuracy: 0.9800";
    "Epoch 19/50";
    "150/150 [==============================] - 0s 503us/sample - loss: 0.1469 - sparse_categorical_accuracy: 0.9467";
    "Epoch 20/50";
    "150/150 [==============================] - 0s 496us/sample - loss: 0.1534 - sparse_categorical_accuracy: 0.9533";
    "Epoch 21/50";
    "150/150 [==============================] - 0s 448us/sample - loss: 0.1266 - sparse_categorical_accuracy: 0.9600";
    "Epoch 22/50";
    "150/150 [==============================] - 0s 638us/sample - loss: 0.1112 - sparse_categorical_accuracy: 0.9800";
    "Epoch 23/50";
    "150/150 [==============================] - 0s 556us/sample - loss: 0.1066 - sparse_categorical_accuracy: 0.9800";
    "Epoch 24/50";
    "150/150 [==============================] - 0s 555us/sample - loss: 0.1033 - sparse_categorical_accuracy: 0.9800";
    "Epoch 25/50";
    "150/150 [==============================] - 0s 472us/sample - loss: 0.1076 - sparse_categorical_accuracy: 0.9533";
    "Epoch 26/50";
    "150/150 [==============================] - 0s 398us/sample - loss: 0.1033 - sparse_categorical_accuracy: 0.9800";
    "Epoch 27/50";
    "150/150 [==============================] - 0s 455us/sample - loss: 0.0907 - sparse_categorical_accuracy: 0.9800";
    "Epoch 28/50";
    "150/150 [==============================] - 0s 518us/sample - loss: 0.0887 - sparse_categorical_accuracy: 0.9733";
    "Epoch 29/50";
    "150/150 [==============================] - 0s 559us/sample - loss: 0.0981 - sparse_categorical_accuracy: 0.9533";
    "Epoch 30/50";
    "150/150 [==============================] - 0s 497us/sample - loss: 0.0911 - sparse_categorical_accuracy: 0.9733";
    "Epoch 31/50";
    "150/150 [==============================] - 0s 392us/sample - loss: 0.0823 - sparse_categorical_accuracy: 0.9600";
    "Epoch 32/50";
    "150/150 [==============================] - 0s 497us/sample - loss: 0.0831 - sparse_categorical_accuracy: 0.9600";
    "Epoch 33/50";
    "150/150 [==============================] - 0s 445us/sample - loss: 0.0867 - sparse_categorical_accuracy: 0.9733";
    "Epoch 34/50";
    "150/150 [==============================] - 0s 450us/sample - loss: 0.1068 - sparse_categorical_accuracy: 0.9400";
    "Epoch 35/50";
    "150/150 [==============================] - 0s 420us/sample - loss: 0.0981 - sparse_categorical_accuracy: 0.9667";
    "Epoch 36/50";
    "150/150 [==============================] - 0s 449us/sample - loss: 0.0787 - sparse_categorical_accuracy: 0.9733";
    "Epoch 37/50";
    "150/150 [==============================] - 0s 540us/sample - loss: 0.0841 - sparse_categorical_accuracy: 0.9733";
    "Epoch 38/50";
    "150/150 [==============================] - 0s 423us/sample - loss: 0.0865 - sparse_categorical_accuracy: 0.9533";
    "Epoch 39/50";
    "150/150 [==============================] - 0s 333us/sample - loss: 0.0817 - sparse_categorical_accuracy: 0.9733";
    "Epoch 40/50";
    "150/150 [==============================] - 0s 375us/sample - loss: 0.0877 - sparse_categorical_accuracy: 0.9600";
    "Epoch 41/50";
    "150/150 [==============================] - 0s 442us/sample - loss: 0.1000 - sparse_categorical_accuracy: 0.9667";
    "Epoch 42/50";
    "150/150 [==============================] - 0s 451us/sample - loss: 0.1399 - sparse_categorical_accuracy: 0.9267";
    "Epoch 43/50";
    "150/150 [==============================] - 0s 471us/sample - loss: 0.0967 - sparse_categorical_accuracy: 0.9667";
    "Epoch 44/50";
    "150/150 [==============================] - 0s 415us/sample - loss: 0.0796 - sparse_categorical_accuracy: 0.9800";
    "Epoch 45/50";
    "150/150 [==============================] - 0s 477us/sample - loss: 0.0789 - sparse_categorical_accuracy: 0.9600";
    "Epoch 46/50";
    "150/150 [==============================] - 0s 473us/sample - loss: 0.0775 - sparse_categorical_accuracy: 0.9733";
    "Epoch 47/50";
    "150/150 [==============================] - 0s 475us/sample - loss: 0.0672 - sparse_categorical_accuracy: 0.9667";
    "Epoch 48/50";
    "150/150 [==============================] - 0s 399us/sample - loss: 0.0679 - sparse_categorical_accuracy: 0.9800";
    "Epoch 49/50";
    "150/150 [==============================] - 0s 400us/sample - loss: 0.0753 - sparse_categorical_accuracy: 0.9733";
    "Epoch 50/50";
    "150/150 [==============================] - 0s 283us/sample - loss: 0.0696 - sparse_categorical_accuracy: 0.9733"
  ].

Definition stdout_ls : list string :=
  [
    "checkpoints:";
    "model01.h5  model10.h5" +:+ tab +:+ "model19.h5  model28.h5" +:+ tab +:+ "model37.h5  model46.h5";
    "model02.h5  model11.h5" +:+ tab +:+ "model20.h5  model29.h5" +:+ tab +:+ "model38.h5  model47.h5";
    "model03.h5  model12.h5" +:+ tab +:+ "model21.h5  model30.h5" +:+ tab +:+ "model39.h5  model48.h5";
    "model04.h5  model13.h5" +:+ tab +:+ "model22.h5  model31.h5" +:+ tab +:+ "model40.h5  model49.h5";
    "model05.h5  model14.h5" +:+ tab +:+ "model23.h5  model32.h5" +:+ tab +:+ "model41.h5  model50.h5";
    "model06.h5  model15.h5" +:+ tab +:+ "model24.h5  model33.h5" +:+ tab +:+ "model42.h5";
    "model07.h5  model16.h5" +:+ tab +:+ "model25.h5  model34.h5" +:+ tab +:+ "model43.h5";
    "model08.h5  model17.h5" +:+ tab +:+ "model26.h5  model35.h5" +:+ tab +:+ "model44.h5";
    "model09.h5  model18.h5" +:+ tab +:+ "model27.h5  model36.h5" +:+ tab +:+ "model45.h5";
    "";
    "logs:";
    "2020-05-06-08-06-36  2020-05-06-12-39-28  2020-05-06-12-51-23";
    "2020-05-06-08-15-49  2020-05-06-12-50-02"
  ].

Definition code_cells : list (list string) :=
  [source_imports; source_load; source_model; source_compile; source_fit;
   source_ls; source_empty].

(** *** Reading the recorded text *)

Fixpoint is_prefix (p s : string) : bool :=
  match p, s with
  | EmptyString, _ => true
  | String a p', String b s' => Ascii.eqb a b && is_prefix p' s'
  | String _ _, EmptyString => false
  end.

Fixpoint contains (p s : string) : bool :=
  is_prefix p s ||
  match s with
  | EmptyString => false
  | String _ s' => contains p s'
  end.

(** The code of a source line: the text before a [#] comment. *)
Fixpoint strip_comment (s : string) : string :=
  match s with
  | EmptyString => EmptyString
  | String c s' => if Ascii.eqb c "#" then EmptyString else String c (strip_comment s')
  end.

(** A statement keyword opens the line when it is the first word. *)
Definition first_word (s : string) : option string := head (String.words s).

Definition opens_with (kw : list string) (line : string) : bool :=
  match first_word (strip_comment line) with
  | Some w =>
      existsb (fun k => String.eqb w k || String.eqb w (k +:+ ":")) kw
  | None => false
  end.

(** The entries [ls] lists under the heading [dir:], up to the next blank
    line. *)
Fixpoint take_block (ls : list string) : list string :=
  match ls with
  | [] => []
  | l :: rest => if String.eqb l "" then [] else String.words l ++ take_block rest
  end.

Fixpoint ls_entries (dir : string) (ls : list string) : list string :=
  match ls with
  | [] => []
  | l :: rest =>
      if String.eqb l (dir +:+ ":") then take_block rest else ls_entries dir rest
  end.

(** Insertion sort on strings; [ls] prints column by column, the entries are
    compared in sorted order. *)
Fixpoint insert_sorted (s : string) (l : list string) : list string :=
  match l with
  | [] => [s]
  | t :: rest => if String.leb s t then s :: l else t :: insert_sorted s rest
  end.

Definition sort_strings (l : list string) : list string :=
  foldr insert_sorted [] l.

End Recorded.

(* ===================================================================== *)
(** ** A reference environment *)
(* ===================================================================== *)

(** An environment in which every library call succeeds and does what its
    documentation says: imports and printing have no effect on the model or
    the files, [load_iris] returns the data set, the clock returns the current
    reading, the model calls act on the one model object, and [fit] is
    [Keras.fit].  It is one possible environment; the statements about
    failures below quantify over all of them. *)
Module Env.
Import Py Keras Nb.

(** The Iris data set as scikit-learn ships it: 150 samples of 4 features,
    labelled with 3 classes. *)
Definition iris_data_shape : list nat := [150; 4]%nat.

Section Nominal.
Variable Weights : Type.

Record world : Type := {
  w_iris : Bunch;                    (* what load_iris returns *)
  w_clock : datetime;                (* the reading of the wall clock *)
  w_model : option Sequential;       (* the object bound to model *)
  w_weights : Weights;               (* its parameters *)
  w_files : gset string              (* the paths that exist on disk *)
}.

Definition set_model (m : option Sequential) (w : world) : world :=
  {| w_iris := w_iris w; w_clock := w_clock w; w_model := m;
     w_weights := w_weights w; w_files := w_files w |}.

Definition on_model {A : Type} (w : world) (f : Sequential -> outcome A * world)
    : outcome A * world :=
  match w_model w with
  | Some m => f m
  | None => (Exn RuntimeError, w)
  end.

(** The answers of the environment, for a given implementation [fit_impl] of
    the training routine. *)
Definition answers
    (fit_impl : Sequential -> fit_args -> Weights -> gset string
                -> outcome (train_state Weights))
    (X : Type) (c : call X) (w : world) : outcome X * world :=
  match c in call X return outcome X * world with
  | Import _ _ | FromImport _ _ | Magic _ | SetRcParam _ _ | PrintVersion => (Ok tt, w)
  | LoadIris => (Ok (w_iris w), w)
  | NewSequential => (Ok tt, set_model (Some new_Sequential) w)
  | ModelAdd l => on_model w (fun m => (Ok tt, set_model (Some (add m l)) w))
  | ModelSummary => on_model w (fun m => (_ ← summary m; Ok tt, w))
  | ModelCompile c => on_model w (fun m => (Ok tt, set_model (Some (compile m c)) w))
  | Now => (Ok (w_clock w), w)
  | NewCallback _ => (Ok tt, w)
  | ModelFit a =>
      on_model w (fun m =>
        match fit_impl m a (w_weights w) (w_files w) with
        | Ok st =>
            (Ok (hist st),
             {| w_iris := w_iris w; w_clock := w_clock w; w_model := w_model w;
                w_weights := weights st; w_files := files st |})
        | Exn e => (Exn e, w)
        | Unmodelled => (Unmodelled, w)
        end)
  | Shell _ => (Ok tt, w)
  end.

(** The reference environment trains with [Keras.fit]. *)
Definition nominal
    (train_epoch : ndarray -> ndarray -> nat -> nat -> Weights -> Weights)
    (evaluate : string -> ndarray -> ndarray -> Weights -> spec_float)
    : forall X : Type, call X -> world -> outcome X * world :=
  answers (fit Weights train_epoch evaluate).

End Nominal.
Arguments w_iris {Weights} w.
Arguments w_clock {Weights} w.
Arguments w_model {Weights} w.
Arguments w_weights {Weights} w.
Arguments w_files {Weights} w.

(** A small instance to run: no numerical work at all. *)
Definition toy_world (now : datetime) (fs : gset string) : world unit :=
  {| w_iris := {| data := {| shape := iris_data_shape; elems := [] |};
                  target := {| shape := [150%nat]; elems := [] |} |};
     w_clock := now; w_model := None; w_weights := tt; w_files := fs |}.

Definition toy : forall X : Type, call X -> world unit -> outcome X * world unit :=
  nominal unit (fun _ _ _ _ w => w) (fun _ _ _ _ => S754_zero false).

End Env.

(* ===================================================================== *)
(** ** Vocabulary of the statements *)
(* ===================================================================== *)

Import Py Keras Nb.

(** The number a string of decimal digits denotes; leading zeros do not
    count. *)
Definition value_of (s : string) : option N :=
  N.of_uint <$> NilEmpty.uint_of_string s.



(** The file [ModelCheckpoint] writes for the [k]-th epoch, counting from 1. *)
Definition checkpoint_file (k : nat) : string :=
  "./checkpoints/model" +:+ format_int true 2 (Z.of_nat k) +:+ ".h5".


Definition in_checkpoints (p : string) : bool := Recorded.is_prefix "./checkpoints/" p.

(** The callbacks of the notebook, for a given log directory. *)
Definition nb_callbacks (dir : string) : list callback :=
  [TensorBoard dir; ModelCheckpoint checkpoint_filepath EveryEpoch].

(** The arguments of [fit] with another number of epochs. *)
Definition with_epochs (n : nat) (a : fit_args) : fit_args :=
  {| x := x a; y := y a; batch_size := batch_size a; epochs := n;
     verbose := verbose a; callbacks := callbacks a |}.

Definition step_le (a b : step) : Prop := (step_index a <= step_index b)%nat.

Definition all_steps : list step :=
  replicate 11 Setup ++ [LoadData] ++ replicate 5 BuildModel ++ [CompileModel]
  ++ replicate 4 Train ++ [Inspect].

(** What [fit] and the callback constructors are called with. *)
Definition framework_callbacks_only (X : Type) (c : call X) : Prop :=
  match c with
  | ModelFit a =>
      (exists dir : string, callbacks a = nb_callbacks dir) /\
      length (callbacks a) = 2%nat /\
      forallb is_framework_callback (callbacks a) = true
  | NewCallback cb => is_framework_callback cb = true
  | _ => True
  end.

Definition is_fit_call (e : entry) : bool :=
  match e with
  | Returned (ModelFit _) | Failed (ModelFit _) _ => true
  | _ => false
  end.

(** No code cell defines a class or a function. *)
Definition defines_nothing : bool :=
  forallb (forallb (fun line => negb (Recorded.opens_with ["class"; "def"] line)))
          Recorded.code_cells.

(** No code cell has a [try] statement. *)
Definition handles_nothing : bool :=
  forallb (forallb (fun line =>
             negb (Recorded.opens_with ["try"; "except"; "finally"] line)))
          Recorded.code_cells.

(** The time stamp of a clock reading, to the second. *)
Definition stamp (d : datetime) : string :=
  format_int false 0 (year d) +:+ "-" +:+ format_int true 2 (month d) +:+ "-" +:+
  format_int true 2 (day d) +:+ "-" +:+ format_int true 2 (hour d) +:+ "-" +:+
  format_int true 2 (minute d) +:+ "-" +:+ format_int true 2 (second d).

Definition same_second (d d' : datetime) : bool :=
  (year d =? year d') && (month d =? month d') && (day d =? day d') &&
  (hour d =? hour d') && (minute d =? minute d') && (second d =? second d').

Definition a_clock : datetime := Build_datetime 2020 5 6 8 6 36 0.

(** An environment in which [fit] fails with an I/O error. *)
Definition failing_fit : forall X : Type, call X -> Env.world unit -> outcome X * Env.world unit :=
  Env.answers unit (fun _ _ _ _ => Exn OSError).

(** Two runs in the same second: the clock readings differ, the log
    directory does not. *)
Definition first_reading : datetime := Build_datetime 2020 5 6 8 6 36 0.

Definition second_reading : datetime := Build_datetime 2020 5 6 8 6 36 500000.

Definition files_after_first_run : gset string :=
  Env.w_files (world (run Env.toy notebook (Env.toy_world first_reading ∅))).

Definition files_after_second_run : gset string :=
  Env.w_files (world (run Env.toy notebook (Env.toy_world second_reading
                                                        files_after_first_run))).

(** The clock readings behind the recorded listing of [logs], to the
    second. *)
Definition recorded_readings : list datetime :=
  [Build_datetime 2020 5 6 8 6 36 0; Build_datetime 2020 5 6 8 15 49 0;
   Build_datetime 2020 5 6 12 39 28 0; Build_datetime 2020 5 6 12 50 2 0;
   Build_datetime 2020 5 6 12 51 23 0].

(** A call, whatever it returns. *)
Inductive ev : Type :=
| Ev {X : Type} (c : call X).

Definition entry_call (e : entry) : ev :=
  match e with
  | Returned c => Ev c
  | Failed c _ => Ev c
  end.

(** The calls of a complete run, given the data set [load_iris] returned and
    the log directory. *)
Definition script (iris : Bunch) (dir : string) : list ev :=
  [Ev (Import "numpy" "np"); Ev (Import "pandas" "pd");
   Ev (Import "matplotlib.pyplot" "plt"); Ev (Import "datetime" "dt");
   Ev (Import "tensorflow" "tf"); Ev (FromImport "sklearn.datasets" "load_iris");
   Ev (FromImport "sklearn.metrics" "confusion_matrix"); Ev (Import "pydot" "pydot");
   Ev (Magic "pylab inline"); Ev (SetRcParam "figure.figsize" [8; 6]);
   Ev PrintVersion;
   Ev LoadIris;
   Ev NewSequential; Ev (ModelAdd (Dense 10 (Some relu) (Some [4%nat])));
   Ev (ModelAdd (Dense 10 (Some relu) None)); Ev (ModelAdd (Dense 3 None None));
   Ev ModelSummary;
   Ev (ModelCompile {| c_optimizer := Adam 0.01;
                       c_loss := SparseCategoricalCrossentropy true;
                       c_metrics := [SparseCategoricalAccuracy] |});
   Ev Now;
   Ev (NewCallback (TensorBoard dir));
   Ev (NewCallback (ModelCheckpoint "./checkpoints/model{epoch:02d}.h5" EveryEpoch));
   Ev (ModelFit {| x := data iris; y := target iris; batch_size := 32; epochs := 50;
                   verbose := 1;
                   callbacks := [TensorBoard dir;
                                 ModelCheckpoint "./checkpoints/model{epoch:02d}.h5"
                                                 EveryEpoch] |});
   Ev (Shell "ls logs checkpoints")].

Definition no_data : Bunch :=
  {| data := {| shape := []; elems := [] |}; target := {| shape := []; elems := [] |} |}.

(** The arguments of a call of [fit]. *)
Definition fit_args_of (e : entry) : option fit_args :=
  match e with
  | Returned c | Failed c _ =>
      match c with
      | ModelFit a => Some a
      | _ => None
      end
  end.

(** The state of the environment when the notebook is run again at clock
    reading [now]. *)
Definition at_clock {Weights : Type} (now : datetime) (w : Env.world Weights)
    : Env.world Weights :=
  {| Env.w_iris := Env.w_iris w; Env.w_clock := now; Env.w_model := Env.w_model w;
     Env.w_weights := Env.w_weights w; Env.w_files := Env.w_files w |}.

(** Comparing two clock readings field by field, year first, down to the
    second. *)
Definition chron_compare (d d' : datetime) : comparison :=
  match year d ?= year d' with
  | Eq =>
    match month d ?= month d' with
    | Eq =>
      match day d ?= day d' with
      | Eq =>
        match hour d ?= hour d' with
        | Eq =>
          match minute d ?= minute d' with
          | Eq => second d ?= second d'
          | r => r
          end
        | r => r
        end
      | r => r
      end
    | r => r
    end
  | r => r
  end.

(** A history with [n] values under each of the two keys the compiled model
    logs, and no other key. *)
Definition history_of_length (n : nat) (h : gmap string (list pyval)) : Prop :=
  length (default [] (h !! "loss")) = n /\
  length (default [] (h !! "sparse_categorical_accuracy")) = n /\
  forall k : string, k <> "loss" -> k <> "sparse_categorical_accuracy" -> h !! k = None.

(** The names the first cell imports that no later cell mentions. *)
Definition unused_imports : list string :=
  ["np."; "pd."; "plt."; "confusion_matrix"; "pydot"].

Definition later_cells : list (list string) :=
  [Recorded.source_load; Recorded.source_model; Recorded.source_compile;
   Recorded.source_fit; Recorded.source_ls; Recorded.source_empty].

Definition never_mentioned (names : list string) (cells : list (list string)) : bool :=
  forallb (fun name =>
    forallb (forallb (fun line => negb (Recorded.contains name line))) cells) names.

(** What every call of [fit] carries: the literal [epochs=50] and the two
    callbacks of the cell. *)
Definition fifty_epochs_call (X : Type) (c : call X) : Prop :=
  match c with
  | ModelFit a => epochs a = 50%nat /\ exists dir : string, callbacks a = nb_callbacks dir
  | _ => True
  end.

(* ===================================================================== *)
(** ** Facts about the built-ins *)
(* ===================================================================== *)

Lemma s_app_cons (c : ascii) (s t : string) : String c s +:+ t = String c (s +:+ t).
Proof. reflexivity. Qed.

Lemma s_app_nil_l (t : string) : "" +:+ t = t.
Proof. reflexivity. Qed.

Lemma s_app_nil_r (s : string) : s +:+ "" = s.
Proof. induction s as [|c s IH]; [reflexivity|]. rewrite s_app_cons. by f_equal. Qed.

Lemma app_assoc_s (a b c : string) : (a +:+ b) +:+ c = a +:+ (b +:+ c).
Proof. induction a as [|x a IH]; [reflexivity|]. rewrite !s_app_cons. by f_equal. Qed.

Lemma length_app_s (a b : string) :
  String.length (a +:+ b) = (String.length a + String.length b)%nat.
Proof. induction a as [|x a IH]; [reflexivity|]. rewrite s_app_cons. simpl. by f_equal. Qed.

Lemma length_repeat_char (c : ascii) (n : nat) : String.length (repeat_char c n) = n.
Proof. induction n as [|n IH]; simpl; [reflexivity|by f_equal]. Qed.

(** Two concatenations with first parts of equal length agree part by part. *)
Lemma app_inj_length (a a' b b' : string) :
  String.length a = String.length a' ->
  a +:+ b = a' +:+ b' -> a = a' /\ b = b'.
Proof.
  revert a'. induction a as [|x a IH]; intros [|x' a'] Hlen Heq; try discriminate.
  - by split.
  - rewrite !s_app_cons in Heq. injection Heq as -> Heq. injection Hlen as Hlen.
    destruct (IH _ Hlen Heq) as [-> ->]. by split.
Qed.

Lemma app_inv_tail_s (a a' t : string) : a +:+ t = a' +:+ t -> a = a'.
Proof.
  intros Heq. apply (app_inj_length a a' t t); [|exact Heq].
  apply (f_equal String.length) in Heq. rewrite !length_app_s in Heq. lia.
Qed.

Lemma value_of_digits (n : N) : value_of (digits n) = Some n.
Proof.
  unfold value_of, digits. rewrite NilEmpty.usu. simpl. f_equal. apply DecimalN.Unsigned.of_to.
Qed.

Lemma value_of_zero_cons (s : string) : value_of (String "0" s) = value_of s.
Proof.
  unfold value_of. simpl. destruct (NilEmpty.uint_of_string s); reflexivity.
Qed.

Lemma value_of_zeros (k : nat) (s : string) :
  value_of (repeat_char "0" k +:+ s) = value_of s.
Proof.
  induction k as [|k IH]; [reflexivity|].
  simpl repeat_char. rewrite s_app_cons, value_of_zero_cons. exact IH.
Qed.

(** Zero-padded formatting of a natural number, in closed form. *)
Lemma format_int_nonneg (w : nat) (z : Z) :
  0 <= z ->
  format_int true w z
  = repeat_char "0" (w - String.length (digits (Z.to_N z))) +:+ digits (Z.to_N z).
Proof.
  intros Hz. unfold format_int.
  replace (z <? 0) with false by (symmetry; apply Z.ltb_ge; lia).
  replace (Z.abs_N z) with (Z.to_N z) by (destruct z; try reflexivity; lia).
  rewrite s_app_nil_l. reflexivity.
Qed.

Lemma value_of_format_int (w : nat) (z : Z) :
  0 <= z -> value_of (format_int true w z) = Some (Z.to_N z).
Proof.
  intros Hz. rewrite format_int_nonneg by exact Hz.
  rewrite value_of_zeros. apply value_of_digits.
Qed.

Lemma format_int_inj (w : nat) (z z' : Z) :
  0 <= z -> 0 <= z' -> format_int true w z = format_int true w z' -> z = z'.
Proof.
  intros Hz Hz' Heq. apply (f_equal value_of) in Heq.
  rewrite !value_of_format_int in Heq by assumption.
  injection Heq as Heq. lia.
Qed.

Lemma lookup_field_keyword (kw : gmap string pyval) (num : numbering) (v : pyval) :
  kw !! "epoch" = Some v -> lookup_field [] kw num "epoch" = (Ok v, num).
Proof. intros Hkw. unfold lookup_field. rewrite Hkw. reflexivity. Qed.

(** The checkpoint template, evaluated: the keyword [epoch] is all it reads. *)
Lemma format_checkpoint_filepath (kw : gmap string pyval) (z : Z) :
  kw !! "epoch" = Some (PyInt z) ->
  format checkpoint_filepath [] kw
  = Ok ("./checkpoints/model" +:+ format_int true 2 z +:+ ".h5").
Proof.
  intros Hkw. unfold format, checkpoint_filepath.
  lazy -[lookup_field format_int String.append].
  rewrite (lookup_field_keyword kw Fresh _ Hkw).
  lazy -[format_int String.append].
  reflexivity.
Qed.

Lemma strftime_stamp (d : datetime) : strftime d stamp_format = Ok (stamp d).
Proof.
  lazy -[format_int String.append year month day hour minute second].
  rewrite s_app_nil_r. reflexivity.
Qed.

Lemma format_logs (stamp : string) :
  format "./logs/{}" [PyStr stamp] ∅ = Ok ("./logs/" +:+ stamp).
Proof.
  lazy -[String.append]. rewrite s_app_nil_r. reflexivity.
Qed.

Lemma log_dir_closed (d : datetime) : log_dir d = Ok ("./logs/" +:+ stamp d).
Proof.
  unfold log_dir. rewrite strftime_stamp.
  change (mbind ?f (Ok ?v)) with (f v). cbv beta.
  apply format_logs.
Qed.

Lemma checkpoint_path_closed (ep : nat) (logs : list (string * pyval)) :
  "epoch" ∉ logs.*1 ->
  checkpoint_path checkpoint_filepath ep logs = Ok (checkpoint_file (S ep)).
Proof.
  intros Hk. unfold checkpoint_path.
  rewrite bool_decide_eq_false_2 by exact Hk.
  rewrite (format_checkpoint_filepath _ (Z.of_nat ep + 1)) by apply lookup_insert_eq.
  unfold checkpoint_file. rewrite Nat2Z.inj_succ. reflexivity.
Qed.

Lemma checkpoint_file_inj (k k' : nat) :
  checkpoint_file k = checkpoint_file k' -> k = k'.
Proof.
  unfold checkpoint_file. intros Heq.
  apply String.app_inj in Heq. apply app_inv_tail_s in Heq.
  apply format_int_inj in Heq; lia.
Qed.

Lemma metric_name_not_epoch (m : metric) : metric_name m ≠ "epoch".
Proof. destruct m; discriminate. Qed.

Section TrainingFacts.
Variable Weights : Type.
Variable train_epoch : ndarray -> ndarray -> nat -> nat -> Weights -> Weights.
Variable evaluate : string -> ndarray -> ndarray -> Weights -> spec_float.

Lemma epoch_not_logged (c : compile_args) (a : fit_args) (w : Weights) :
  "epoch" ∉ (epoch_logs Weights evaluate c a w).*1.
Proof.
  unfold epoch_logs. rewrite <- list_fmap_compose.
  intros Hin. apply list_elem_of_fmap in Hin as (k & Hk & Hin). simpl in Hk. subst k.
  apply elem_of_cons in Hin as [Heq|Hin]; [discriminate|].
  apply list_elem_of_fmap in Hin as (m & Heq & _).
  by apply (metric_name_not_epoch m).
Qed.

Local Abbreviation fit_loop' := (fit_loop Weights train_epoch evaluate).
Local Abbreviation state := (train_state Weights).

(** With the notebook's callbacks, the loop runs all the epochs it is given:
    it never stops early and writes one checkpoint per epoch. *)
Lemma fit_loop_nb_callbacks (c : compile_args) (a : fit_args) (dir : string)
    (n ep : nat) (st : state) :
  callbacks a = nb_callbacks dir ->
  stop_training st = false ->
  dir ∈ files st ->
  exists st' : state,
    fit_loop' c a n ep st = Ok st' /\
    stop_training st' = false /\
    epoch (hist st') = epoch (hist st) ++ seq ep n /\
    files st' = list_to_set (checkpoint_file <$> seq (S ep) n) ∪ files st.
Proof.
  intros Hcb. revert ep st. induction n as [|n IH]; intros ep st Hstop Hdir.
  - exists st. simpl. rewrite List.app_nil_r. repeat split; [assumption | set_solver].
  - cbn [fit_loop]. rewrite Hstop, Hcb. cbn [nb_callbacks each_callback on_epoch_end].
    rewrite checkpoint_path_closed by apply epoch_not_logged.
    cbn [mbind outcome_bind obind mret].
    match goal with |- context [fit_loop' c a n (S ep) ?s] =>
      destruct (IH (S ep) s) as (st' & Hrun & Hstop' & Hep & Hfiles) end.
    + reflexivity.
    + cbn. set_solver.
    + exists st'. split; [exact Hrun|]. split; [exact Hstop'|]. split.
      * rewrite Hep. cbn. rewrite <- app_assoc. reflexivity.
      * rewrite Hfiles. cbn. set_solver.
Qed.

End TrainingFacts.

(* ===================================================================== *)
(** ** Facts about execution *)
(* ===================================================================== *)

Section RunFacts.
Variable World : Type.
Variable h : forall X : Type, call X -> World -> outcome X * World.

Lemma last_cons_in {A : Type} (a b : A) (l : list A) :
  In b l -> last (a :: l) = last l.
Proof. destruct l; [contradiction|reflexivity]. Qed.

(** In a program without [try], a call that raises ends the execution with
    that very exception. *)
Lemma try_free_propagates {A : Type} (p : prog A) :
  try_free p ->
  forall (w : World) (X : Type) (c : call X) (x : exn),
    In (Failed c x) (trace (run h p w)) ->
    value (run h p w) = Exn x /\ last (trace (run h p w)) = Some (Failed c x).
Proof.
  induction 1 as [a|e0|  |Y c0 k Hk IH]; intros w X c x Hin; simpl in Hin;
    try contradiction.
  simpl in *. destruct (h Y c0 w) as [[v|x0|] w']; simpl in *.
  - destruct Hin as [Heq|Hin]; [discriminate|].
    destruct (IH v w' X c x Hin) as (Hval & Hlast).
    split; [exact Hval|]. rewrite (last_cons_in _ (Failed c x)) by exact Hin. exact Hlast.
  - destruct Hin as [Heq|[]]. split; [|by rewrite Heq].
    injection Heq as _ _ ->. reflexivity.
  - contradiction.
Qed.

Lemma calls_satisfy_trace {A : Type} (P : forall X : Type, call X -> Prop) (p : prog A) :
  calls_satisfy P p -> forall w : World, Forall (entry_satisfies P) (trace (run h p w)).
Proof.
  induction 1 as [a|e0|  |X c k Hc Hk IH]; intros w; simpl; try constructor.
  destruct (h X c w) as [[v|x|] w']; simpl; repeat constructor; auto.
Qed.

Lemma ordered_trace {A : Type} (s : step) (p : prog A) :
  ordered_from s p ->
  forall w : World,
    Forall (step_le s) (entry_step <$> trace (run h p w)) /\
    StronglySorted step_le (entry_step <$> trace (run h p w)).
Proof.
  induction 1 as [s a|s e0|s|X s c k Hc Hk IH]; intros w; simpl;
    try (split; constructor).
  destruct (h X c w) as [[v|x|] w']; simpl.
  - destruct (IH v w') as [Hall Hsorted]. split.
    + constructor; [exact Hc|]. eapply Forall_impl; [exact Hall|].
      intros t Ht. unfold step_le in *. lia.
    + constructor; assumption.
  - split; repeat constructor. exact Hc.
  - split; constructor.
Qed.

End RunFacts.

(** *** The notebook, statically *)

Ltac unfold_notebook :=
  unfold notebook, cell_imports, cell_load, cell_model, cell_compile, cell_fit,
    cell_ls, do_call;
  cbn [mbind prog_bind pbind].

Lemma notebook_try_free : try_free notebook.
Proof.
  unfold_notebook.
  repeat first
    [ apply tf_Ret | apply tf_Raise | apply tf_Stuck
    | apply tf_Vis; intros ?
    | match goal with |- context [lift ?r] => destruct r; cbn [lift pbind] end ].
Qed.

Lemma notebook_ordered : ordered_from Setup notebook.
Proof.
  unfold_notebook.
  repeat first
    [ apply of_Ret | apply of_Raise | apply of_Stuck
    | apply of_Vis; [cbn; lia | intros ?]
    | match goal with |- context [lift ?r] => destruct r; cbn [lift pbind] end ].
Qed.

Section AnyFit.
Variable Weights : Type.

(** The notebook in an environment whose [fit] succeeds. *)
Lemma answers_run
    (fit_impl : Sequential -> fit_args -> Weights -> gset string
                -> outcome (train_state Weights))
    (w : Env.world Weights) (dir : string) (st : train_state Weights) :
  log_dir (Env.w_clock w) = Ok dir ->
  fit_impl compiled_model (fit_config (Env.w_iris w) (nb_callbacks dir))
           (Env.w_weights w) (Env.w_files w) = Ok st ->
  let r := run (Env.answers Weights fit_impl) notebook w in
  value r = Ok tt /\
  Env.w_model (world r) = Some compiled_model /\
  Env.w_files (world r) = files st /\
  entry_step <$> trace r
  = replicate 11 Setup ++ [LoadData] ++ replicate 5 BuildModel ++ [CompileModel]
    ++ replicate 4 Train ++ [Inspect].
Proof.
  intros Hdir Hfit. unfold_notebook. cbn -[log_dir].
  rewrite Hdir. cbn -[fit_config compile add].
  change (fit_impl _ _ _ _) with
    (fit_impl compiled_model (fit_config (Env.w_iris w) (nb_callbacks dir))
              (Env.w_weights w) (Env.w_files w)).
  rewrite Hfit. cbn. repeat split.
Qed.

End AnyFit.

Section ReferenceRun.
Variable Weights : Type.
Variable train_epoch : ndarray -> ndarray -> nat -> nat -> Weights -> Weights.
Variable evaluate : string -> ndarray -> ndarray -> Weights -> spec_float.

Local Abbreviation fit' := (fit Weights train_epoch evaluate).
Local Abbreviation env := (Env.nominal Weights train_epoch evaluate).

(** [fit] with the notebook's callbacks on a compiled model: every epoch is
    run, and the files on disk afterwards are the old ones, the log directory
    and one checkpoint per epoch. *)
Lemma fit_nb_callbacks (m : Sequential) (c : compile_args) (a : fit_args)
    (dir : string) (w0 : Weights) (fs : gset string) :
  compiled m = Some c ->
  callbacks a = nb_callbacks dir ->
  exists st : train_state Weights,
    fit' m a w0 fs = Ok st /\
    epoch (hist st) = seq 0 (epochs a) /\
    files st = list_to_set (checkpoint_file <$> seq 1 (epochs a)) ∪ ({[dir]} ∪ fs).
Proof.
  intros Hc Hcb. unfold fit. rewrite Hc, Hcb.
  cbn [nb_callbacks each_callback on_train_begin mbind outcome_bind obind].
  match goal with |- context [fit_loop _ _ _ c a (epochs a) 0 ?s] =>
    destruct (fit_loop_nb_callbacks Weights train_epoch evaluate c a dir (epochs a) 0 s)
      as (st & Hrun & _ & Hep & Hfiles) end.
  - exact Hcb.
  - reflexivity.
  - cbn. set_solver.
  - exists st. split; [exact Hrun|]. split; [exact Hep|].
    rewrite Hfiles. cbn. set_solver.
Qed.

(** The whole notebook in the reference environment. *)
Lemma reference_run (w : Env.world Weights) (dir : string) :
  log_dir (Env.w_clock w) = Ok dir ->
  let r := run (Env.nominal Weights train_epoch evaluate) notebook w in
  value r = Ok tt /\
  Env.w_model (world r) = Some compiled_model /\
  Env.w_files (world r)
  = list_to_set (checkpoint_file <$> seq 1 50) ∪ ({[dir]} ∪ Env.w_files w) /\
  entry_step <$> trace r
  = replicate 11 Setup ++ [LoadData] ++ replicate 5 BuildModel ++ [CompileModel]
    ++ replicate 4 Train ++ [Inspect].
Proof.
  intros Hdir.
  destruct (fit_nb_callbacks compiled_model compile_config
              (fit_config (Env.w_iris w) (nb_callbacks dir)) dir
              (Env.w_weights w) (Env.w_files w) eq_refl eq_refl)
    as (st & Hrun & _ & Hfiles).
  change (epochs (fit_config _ _)) with 50%nat in Hfiles.
  rewrite <- Hfiles.
  exact (answers_run Weights _ w dir st Hdir Hrun).
Qed.
End ReferenceRun.

(* ===================================================================== *)
(** ** The model at work *)
(* ===================================================================== *)

Example format_checkpoint_7 :
  format checkpoint_filepath [] {[ "epoch" := PyInt 7 ]} = Ok "./checkpoints/model07.h5".
Proof. vm_compute. reflexivity. Qed.

Example format_checkpoint_123 :
  format checkpoint_filepath [] {[ "epoch" := PyInt 123 ]} = Ok "./checkpoints/model123.h5".
Proof. vm_compute. reflexivity. Qed.

Example format_missing_keyword :
  format checkpoint_filepath [] ∅ = Exn (KeyError "epoch").
Proof. vm_compute. reflexivity. Qed.

Example format_float_as_integer :
  format checkpoint_filepath [] {[ "epoch" := PyFloat (S754_zero false) ]} = Exn ValueError.
Proof. vm_compute. reflexivity. Qed.

Example format_no_positional : format "./logs/{}" [] ∅ = Exn IndexError.
Proof. vm_compute. reflexivity. Qed.

Example format_int_negative : format_int true 3 (-5) = "-05".
Proof. vm_compute. reflexivity. Qed.

Example strftime_first_reading :
  strftime first_reading stamp_format = Ok "2020-05-06-08-06-36".
Proof. vm_compute. reflexivity. Qed.

(** A callback of the user's own that asks to stop ends the training after
    the epoch in which it asks: the loop does honour [stop_training]. *)
Example stopping_callback_stops :
  (fun r => match r with Ok st => Some (epoch (hist st)) | _ => None end)
    (fit unit (fun _ _ _ _ w => w) (fun _ _ _ _ => S754_zero false) compiled_model
         (fit_config (Env.w_iris (Env.toy_world a_clock ∅))
            [UserDefined (fun ep _ => {| writes := []; request_stop := Nat.eqb ep 2 |})])
         tt ∅)
  = Some [0; 1; 2]%nat.
Proof. vm_compute. reflexivity. Qed.

(** When [fit] fails, nothing after it runs: the listing cell is not
    reached. *)
Example failing_fit_steps :
  entry_step <$> trace (run failing_fit notebook (Env.toy_world a_clock ∅))
  = replicate 11 Setup ++ [LoadData] ++ replicate 5 BuildModel ++ [CompileModel]
    ++ replicate 4 Train.
Proof. vm_compute. reflexivity. Qed.

(** A [try] statement would stop the propagation. *)
Example try_catches :
  value (run failing_fit
             (TryExcept (cell_fit (Env.w_iris (Env.toy_world a_clock ∅)))
                        (fun _ => Ret {| epoch := []; history := ∅ |})
                        (fun _ => cell_ls))
             (Env.set_model unit (Some compiled_model) (Env.toy_world a_clock ∅)))
  = Ok tt.
Proof. vm_compute. reflexivity. Qed.

(* ===================================================================== *)
(** ** Properties of the notebook *)
(* ===================================================================== *)

Lemma below_forallb (P : nat -> bool) (n : nat) :
  forallb P (seq 0 n) = true -> forall k : nat, (k < n)%nat -> P k = true.
Proof.
  intros Hall k Hk. rewrite forallb_forall in Hall. apply Hall. apply in_seq. lia.
Qed.


Lemma checkpoint_file_in_checkpoints (k : nat) : in_checkpoints (checkpoint_file k) = true.
Proof. reflexivity. Qed.

Lemma checkpoint_files_NoDup (n : nat) : NoDup (checkpoint_file <$> seq 1 n).
Proof.
  apply NoDup_fmap_2; [|apply NoDup_seq].
  intros k k'. apply checkpoint_file_inj.
Qed.

(** C1: [fit] with the notebook's [ModelCheckpoint] callback leaves one
    checkpoint file per completed epoch in the checkpoints directory, each
    named by its epoch number; for the 50 epochs of the notebook that makes 50
    files: the ones a run of the notebook in the reference environment adds
    to the disk, and the ones the recorded listing shows. *)
Theorem C1_one_checkpoint_per_epoch
    (Weights : Type)
    (train_epoch : ndarray -> ndarray -> nat -> nat -> Weights -> Weights)
    (evaluate : string -> ndarray -> ndarray -> Weights -> spec_float)
    (iris : Bunch) (dir : string) (w0 : Weights) (fs : gset string) (n : nat) :
  (exists st : train_state Weights,
     fit Weights train_epoch evaluate compiled_model
         (with_epochs n (fit_config iris (nb_callbacks dir))) w0 fs = Ok st /\
     epoch (hist st) = seq 0 n /\
     files st = list_to_set (checkpoint_file <$> seq 1 n) ∪ ({[dir]} ∪ fs)) /\
  NoDup (checkpoint_file <$> seq 1 n) /\
  size (list_to_set (checkpoint_file <$> seq 1 n) : gset string) = n /\
  Forall (fun p => in_checkpoints p = true) (checkpoint_file <$> seq 1 n) /\
  with_epochs 50 (fit_config iris (nb_callbacks dir)) = fit_config iris (nb_callbacks dir) /\
  (forall w : Env.world Weights,
     Env.w_files (world (run (Env.nominal Weights train_epoch evaluate) notebook w))
     = list_to_set (checkpoint_file <$> seq 1 50)
       ∪ ({["./logs/" +:+ stamp (Env.w_clock w)]} ∪ Env.w_files w)) /\
  (fun name => "./checkpoints/" +:+ name)
    <$> Recorded.sort_strings (Recorded.ls_entries "checkpoints" Recorded.stdout_ls)
  = checkpoint_file <$> seq 1 50.
Proof.
  split; [|split; [|split; [|split; [|split; [|split]]]]].
  - exact (fit_nb_callbacks Weights train_epoch evaluate compiled_model compile_config
             (with_epochs n (fit_config iris (nb_callbacks dir))) dir w0 fs eq_refl eq_refl).
  - apply checkpoint_files_NoDup.
  - rewrite size_list_to_set by apply checkpoint_files_NoDup.
    rewrite length_fmap. apply length_seq.
  - apply Forall_fmap, Forall_forall. intros k _. apply checkpoint_file_in_checkpoints.
  - reflexivity.
  - intros w.
    exact (proj1 (proj2 (proj2 (reference_run Weights train_epoch evaluate w _
                                  (log_dir_closed (Env.w_clock w)))))).
  - vm_compute. reflexivity.
Qed.



Section StoppingFacts.
Variable Weights : Type.
Variable train_epoch : ndarray -> ndarray -> nat -> nat -> Weights -> Weights.
Variable evaluate : string -> ndarray -> ndarray -> Weights -> spec_float.

(** The callbacks of the framework leave [stop_training] and the history
    alone. *)
Lemma framework_callbacks_epoch_end (cbs : list callback) (ep : nat)
    (logs : list (string * pyval)) (st : train_state Weights) :
  forallb is_framework_callback cbs = true ->
  match each_callback Weights (fun cb => on_epoch_end Weights cb ep logs) cbs st with
  | Ok st' => stop_training st' = stop_training st /\ hist st' = hist st
  | _ => True
  end.
Proof.
  revert st. induction cbs as [|cb cbs IH]; intros st Hall; [simpl; auto|].
  simpl in Hall. apply andb_true_iff in Hall as [Hcb Hall].
  cbn [each_callback].
  destruct cb as [d|fp [|n]|hook]; try discriminate Hcb; cbn [on_epoch_end].
  - cbn [mbind outcome_bind obind]. specialize (IH (write_files Weights [d] st) Hall).
    destruct (each_callback _ _ cbs _); auto.
  - destruct (checkpoint_path fp ep logs) as [p| |]; cbn [mbind outcome_bind obind]; auto.
    specialize (IH (write_files Weights [p] st) Hall).
    destruct (each_callback _ _ cbs _); auto.
  - exact I.
Qed.

Lemma callbacks_train_begin (cbs : list callback) (st : train_state Weights) :
  exists st' : train_state Weights,
    each_callback Weights (on_train_begin Weights) cbs st = Ok st' /\
    stop_training st' = stop_training st /\ hist st' = hist st.
Proof.
  revert st. induction cbs as [|cb cbs IH]; intros st; [exists st; auto|].
  cbn [each_callback].
  destruct cb as [d|fp f|hook]; cbn [on_train_begin mbind outcome_bind obind].
  - destruct (IH (write_files Weights [d] st)) as (st' & Hrun & Hs & Hh).
    exists st'. auto.
  - apply IH.
  - apply IH.
Qed.

(** With callbacks of the framework only, a training loop that returns has
    run every epoch it was given. *)
Lemma fit_loop_framework_callbacks (c : compile_args) (a : fit_args) (n ep : nat)
    (st : train_state Weights) :
  forallb is_framework_callback (callbacks a) = true ->
  stop_training st = false ->
  match fit_loop Weights train_epoch evaluate c a n ep st with
  | Ok st' => stop_training st' = false /\ epoch (hist st') = epoch (hist st) ++ seq ep n
  | _ => True
  end.
Proof.
  intros Hall. revert ep st. induction n as [|n IH]; intros ep st Hstop.
  - simpl. rewrite List.app_nil_r. auto.
  - cbn [fit_loop]. rewrite Hstop.
    match goal with |- context [each_callback _ ?hook (callbacks a) ?s] =>
      pose proof (framework_callbacks_epoch_end (callbacks a) ep
                    (epoch_logs Weights evaluate c a
                       (train_epoch (x a) (y a) (batch_size a) ep (weights st))) s Hall) as Hcb;
      destruct (each_callback _ hook (callbacks a) s) as [st2| |]
    end; cbn [mbind outcome_bind obind]; try exact I.
    destruct Hcb as [Hs Hh]. cbn in Hs, Hh.
    match goal with |- context [fit_loop _ _ _ c a n (S ep) ?s] =>
      specialize (IH (S ep) s); destruct (fit_loop _ _ _ c a n (S ep) s) as [st'| |]
    end; try exact I.
    destruct IH as [Hstop' Hep]; [cbn; congruence|].
    split; [exact Hstop'|]. rewrite Hep. cbn. rewrite Hh. rewrite <- app_assoc. reflexivity.
Qed.

Lemma fit_framework_callbacks (m : Sequential) (a : fit_args) (w0 : Weights)
    (fs : gset string) :
  forallb is_framework_callback (callbacks a) = true ->
  match fit Weights train_epoch evaluate m a w0 fs with
  | Ok st => epoch (hist st) = seq 0 (epochs a)
  | _ => True
  end.
Proof.
  intros Hall. unfold fit. destruct (compiled m) as [c|]; [|exact I].
  match goal with |- context [each_callback _ _ (callbacks a) ?s] =>
    destruct (callbacks_train_begin (callbacks a) s) as (st1 & -> & Hs & Hh) end.
  cbn [mbind outcome_bind obind].
  pose proof (fit_loop_framework_callbacks c a (epochs a) 0 st1 Hall Hs) as Hloop.
  destruct (fit_loop _ _ _ c a (epochs a) 0 st1); try exact I.
  destruct Hloop as [_ Hep]. rewrite Hep, Hh. reflexivity.
Qed.

End StoppingFacts.

Lemma notebook_fifty_epochs : calls_satisfy fifty_epochs_call notebook.
Proof.
  unfold_notebook.
  repeat first
    [ apply cs_Ret | apply cs_Raise | apply cs_Stuck
    | apply cs_Vis; [cbn; first [exact I | idtac] | intros ?]
    | match goal with |- context [lift ?r] => destruct r; cbn [lift pbind] end ].
  split; [reflexivity|eexists; reflexivity].
Qed.

(** A run that returns has called [fit] exactly once. *)
Lemma complete_run_calls_fit_once
    (World : Type) (h : forall X : Type, call X -> World -> outcome X * World)
    (w : World) :
  match value (run h notebook w) with
  | Ok _ => length (filter (fun e => is_fit_call e = true) (trace (run h notebook w)))
            = 1%nat
  | _ => True
  end.
Proof.
  unfold_notebook. cbn -[log_dir filter].
  repeat (match goal with
          | |- context [h ?X ?c ?w0] => destruct (h X c w0) as [[?|?|] ?]
          | |- context [lift (log_dir ?d)] => destruct (log_dir d)
          end; cbn -[log_dir filter]; try exact I).
  reflexivity.
Qed.

(** C3: [fit] is called with the literal [epochs=50], and with the
    notebook's callbacks the loop performs exactly the epochs 0 to 49,
    whatever the data, the numerical work and the metric values; the recorded
    output shows the fifty epoch headers.  This is the call the notebook
    makes: in every environment each call of [fit] carries [epochs=50] and the
    two callbacks, so that training with its arguments runs the fifty epochs;
    a run that returns has called [fit], once; the run in the reference
    environment returns.  No callback of the framework ever cuts a training
    short: when [fit] returns, it has run all the epochs it was given. *)
Theorem C3_fifty_epochs
    (Weights : Type)
    (train_epoch : ndarray -> ndarray -> nat -> nat -> Weights -> Weights)
    (evaluate : string -> ndarray -> ndarray -> Weights -> spec_float)
    (iris : Bunch) (dir : string) (w0 : Weights) (fs : gset string) :
  epochs (fit_config iris (nb_callbacks dir)) = 50%nat /\
  (exists st : train_state Weights,
     fit Weights train_epoch evaluate compiled_model
         (fit_config iris (nb_callbacks dir)) w0 fs = Ok st /\
     epoch (hist st) = seq 0 50 /\
     length (epoch (hist st)) = 50%nat) /\
  filter (fun l => Recorded.is_prefix "Epoch " l = true) Recorded.stdout_fit
  = (fun ep => epoch_header ep 50) <$> seq 0 50 /\
  (forall (World : Type) (h : forall X : Type, call X -> World -> outcome X * World)
          (w : World),
     Forall (entry_satisfies fifty_epochs_call) (trace (run h notebook w)) /\
     Forall (fun e =>
               match fit_args_of e with
               | Some a =>
                   exists st : train_state Weights,
                     fit Weights train_epoch evaluate compiled_model a w0 fs = Ok st /\
                     epoch (hist st) = seq 0 50
               | None => True
               end) (trace (run h notebook w)) /\
     match value (run h notebook w) with
     | Ok _ => length (filter (fun e => is_fit_call e = true) (trace (run h notebook w)))
               = 1%nat
     | _ => True
     end) /\
  (forall w : Env.world Weights,
     value (run (Env.nominal Weights train_epoch evaluate) notebook w) = Ok tt /\
     length (filter (fun e => is_fit_call e = true)
                    (trace (run (Env.nominal Weights train_epoch evaluate) notebook w)))
     = 1%nat) /\
  (forall (m : Sequential) (a : fit_args),
     forallb is_framework_callback (callbacks a) = true ->
     match fit Weights train_epoch evaluate m a w0 fs with
     | Ok st => epoch (hist st) = seq 0 (epochs a)
     | _ => True
     end).
Proof.
  split; [reflexivity|]. split; [|split; [|split; [|split]]].
  - destruct (fit_nb_callbacks Weights train_epoch evaluate compiled_model compile_config
                (fit_config iris (nb_callbacks dir)) dir w0 fs eq_refl eq_refl)
      as (st & Hrun & Hep & _).
    exists st. split; [exact Hrun|].
    change (epochs (fit_config _ _)) with 50%nat in Hep.
    split; [exact Hep|]. rewrite Hep. reflexivity.
  - vm_compute. reflexivity.
  - intros World h w.
    pose proof (calls_satisfy_trace World h fifty_epochs_call notebook
                  notebook_fifty_epochs w) as Hcalls.
    split; [exact Hcalls|]. split; [|apply complete_run_calls_fit_once].
    eapply Forall_impl; [exact Hcalls|].
    intros [X c|X c x]; destruct c; simpl; try (intros; exact I);
      intros [Hep [d Hcb]];
      (match goal with |- context [fit _ _ _ _ ?a _ _] =>
         destruct (fit_nb_callbacks Weights train_epoch evaluate compiled_model
                     compile_config a d w0 fs eq_refl Hcb) as (st & Hrun & Hseq & _)
       end; exists st; split; [exact Hrun|]; rewrite Hseq, Hep; reflexivity).
  - intros w.
    pose proof (reference_run Weights train_epoch evaluate w _
                  (log_dir_closed (Env.w_clock w))) as (Hval & _).
    pose proof (complete_run_calls_fit_once _ (Env.nominal Weights train_epoch evaluate) w)
      as Hone.
    rewrite Hval in Hone. split; [exact Hval|exact Hone].
  - intros m a Hall. apply fit_framework_callbacks. exact Hall.
Qed.

Lemma C3_fifty_epochs_witness :
  exists st : train_state unit,
    fit unit (fun _ _ _ _ w => w) (fun _ _ _ _ => S754_zero false) compiled_model
        (with_epochs 7 (fit_config (Env.w_iris (Env.toy_world a_clock ∅))
                          [ModelCheckpoint "m{epoch}.h5" EveryEpoch;
                           TensorBoard "logs"]))
        tt ∅ = Ok st /\
    epoch (hist st) = seq 0 7.
Proof.
  pose proof (proj2 (proj2 (proj2 (proj2 (proj2
           (C3_fifty_epochs unit (fun _ _ _ _ w => w) (fun _ _ _ _ => S754_zero false)
              (Env.w_iris (Env.toy_world a_clock ∅)) "logs" tt ∅)))))
           compiled_model
           (with_epochs 7 (fit_config (Env.w_iris (Env.toy_world a_clock ∅))
                              [ModelCheckpoint "m{epoch}.h5" EveryEpoch;
                               TensorBoard "logs"]))
           eq_refl) as Hfit.
  match type of Hfit with
  | match ?t with _ => _ end => destruct t as [st| |] eqn:Hrun
  end.
  - exists st. split; [reflexivity|exact Hfit].
  - vm_compute in Hrun. discriminate Hrun.
  - vm_compute in Hrun. discriminate Hrun.
Defined.

(** C2: the model is three [Dense] layers and nothing else, applied in the
    order of the [add] calls; it is the model object the build cell leaves in
    the reference environment. *)
Theorem C2_three_dense_layers :
  layers model = [hidden1; hidden2; output_layer] /\
  length (layers model) = 3%nat /\
  forallb is_dense (layers model) = true /\
  layers compiled_model = layers model /\
  (forall (Tensor : Type) (apply_layer : layer -> Tensor -> Tensor) (t : Tensor),
     forward Tensor apply_layer model t
     = apply_layer output_layer (apply_layer hidden2 (apply_layer hidden1 t))) /\
  (forall (Weights : Type) fit_impl (w : Env.world Weights),
     Env.w_model (world (run (Env.answers Weights fit_impl) cell_model w)) = Some model).
Proof.
  repeat split.
Qed.



Lemma notebook_callbacks : calls_satisfy framework_callbacks_only notebook.
Proof.
  unfold_notebook.
  repeat first
    [ apply cs_Ret | apply cs_Raise | apply cs_Stuck
    | apply cs_Vis; [cbn; first [exact I | reflexivity | idtac] | intros ?]
    | match goal with |- context [lift ?r] => destruct r; cbn [lift pbind] end ].
  split; [eexists; reflexivity|]. split; reflexivity.
Qed.

(** C5: whenever [fit] is called, it is with exactly two callbacks, a
    [TensorBoard] and a [ModelCheckpoint], both classes of the framework; the
    notebook constructs no other callback and defines no class of its own, and
    a complete run calls [fit] once. *)
Theorem C5_two_framework_callbacks
    (World : Type) (h : forall X : Type, call X -> World -> outcome X * World)
    (w : World) :
  Forall (entry_satisfies framework_callbacks_only) (trace (run h notebook w)) /\
  defines_nothing = true /\
  length (filter (fun e => is_fit_call e = true)
                 (trace (run Env.toy notebook (Env.toy_world a_clock ∅)))) = 1%nat.
Proof.
  split; [|split].
  - apply calls_satisfy_trace, notebook_callbacks.
  - vm_compute. reflexivity.
  - vm_compute. reflexivity.
Qed.

(** C7: the notebook has no [try] statement, and when a library call raises,
    that exception is the result of the run and the failing call is the last
    one made. *)
Theorem C7_exceptions_propagate :
  try_free notebook /\
  handles_nothing = true /\
  forall (World : Type) (h : forall X : Type, call X -> World -> outcome X * World)
         (w : World) (X : Type) (c : call X) (x : exn),
    In (Failed c x) (trace (run h notebook w)) ->
    value (run h notebook w) = Exn x /\
    last (trace (run h notebook w)) = Some (Failed c x).
Proof.
  split; [exact notebook_try_free|]. split; [vm_compute; reflexivity|].
  intros World h w X c x Hin.
  exact (try_free_propagates World h notebook notebook_try_free w X c x Hin).
Qed.

Lemma C7_exceptions_propagate_witness :
  In (Failed (ModelFit (fit_config (Env.w_iris (Env.toy_world a_clock ∅))
                                   (nb_callbacks "./logs/2020-05-06-08-06-36")))
             OSError)
     (trace (run failing_fit notebook (Env.toy_world a_clock ∅))) /\
  value (run failing_fit notebook (Env.toy_world a_clock ∅)) = Exn OSError.
Proof.
  assert (In (Failed (ModelFit (fit_config (Env.w_iris (Env.toy_world a_clock ∅))
                                   (nb_callbacks "./logs/2020-05-06-08-06-36")))
                     OSError)
             (trace (run failing_fit notebook (Env.toy_world a_clock ∅)))) as Hin.
  { vm_compute. repeat first [left; reflexivity | right]. }
  split; [exact Hin|].
  exact (proj1 (proj2 (proj2 C7_exceptions_propagate) _ failing_fit
                  (Env.toy_world a_clock ∅) _ _ _ Hin)).
Defined.

(** The steps of a run are an initial part of the walkthrough: a call of a
    step is made only after all the calls of the steps before it. *)
Lemma steps_prefix
    (World : Type) (h : forall X : Type, call X -> World -> outcome X * World)
    (w : World) :
  (entry_step <$> trace (run h notebook w)) `prefix_of` all_steps.
Proof.
  unfold_notebook. cbn -[log_dir].
  repeat (match goal with
          | |- context [h ?X ?c ?w0] => destruct (h X c w0) as [[?|?|] ?]
          | |- context [lift (log_dir ?d)] => rewrite (log_dir_closed d)
          end; cbn -[log_dir stamp]);
    eexists; reflexivity.
Qed.

(** The notebook gives up only where the environment does: a run that does
    not return ends with an answer of the environment. *)
Lemma stops_only_on_failure
    (World : Type) (h : forall X : Type, call X -> World -> outcome X * World)
    (w : World) :
  match value (run h notebook w) with
  | Ok _ => True
  | Exn x => exists (X : Type) (c : call X) (w1 w1' : World), h X c w1 = (Exn x, w1')
  | Unmodelled =>
      exists (X : Type) (c : call X) (w1 w1' : World), h X c w1 = (Unmodelled, w1')
  end.
Proof.
  unfold_notebook. cbn -[log_dir].
  repeat (match goal with
          | |- context [h ?X ?c ?w0] => destruct (h X c w0) as [[?|?|] ?] eqn:?
          | |- context [lift (log_dir ?d)] => rewrite (log_dir_closed d)
          end; cbn -[log_dir stamp]);
    first [exact I | do 4 eexists; eassumption].
Qed.

(** C6: in every run the calls go through the steps in the order set-up,
    load the data, build the model, compile, train with the two callbacks,
    inspect the files: no call of an earlier step follows a call of a later
    one, a run that completes goes through all of them, and the recorded
    execution counters of the cells increase down the notebook.  More
    precisely, the steps of any run are an initial part of the full list, so
    that a step is reached only after all the calls of the steps listed ahead
    of it; a run stops early only where the environment fails to answer; and
    the run in the reference environment goes through all the steps. *)
Theorem C6_steps_in_order
    (World : Type) (h : forall X : Type, call X -> World -> outcome X * World)
    (w : World) :
  StronglySorted step_le (entry_step <$> trace (run h notebook w)) /\
  match value (run h notebook w) with
  | Ok _ => entry_step <$> trace (run h notebook w) = all_steps
  | _ => True
  end /\
  Recorded.execution_counts
  = [Some 7; Some 8; Some 9; Some 10; Some 11; Some 12; None]%nat /\
  (entry_step <$> trace (run h notebook w)) `prefix_of` all_steps /\
  match value (run h notebook w) with
  | Ok _ => True
  | Exn x => exists (X : Type) (c : call X) (w1 w1' : World), h X c w1 = (Exn x, w1')
  | Unmodelled =>
      exists (X : Type) (c : call X) (w1 w1' : World), h X c w1 = (Unmodelled, w1')
  end /\
  (forall (Weights : Type) train_epoch evaluate (w0 : Env.world Weights),
     value (run (Env.nominal Weights train_epoch evaluate) notebook w0) = Ok tt /\
     entry_step <$> trace (run (Env.nominal Weights train_epoch evaluate) notebook w0)
     = all_steps).
Proof.
  split; [|split; [|split; [|split; [|split]]]].
  - exact (proj2 (ordered_trace World h Setup notebook notebook_ordered w)).
  - unfold_notebook. cbn -[log_dir].
    repeat (match goal with
            | |- context [h ?X ?c ?w0] => destruct (h X c w0) as [[?|?|] ?]
            | |- context [lift (log_dir ?d)] => destruct (log_dir d)
            end; cbn -[log_dir]; try exact I).
    reflexivity.
  - reflexivity.
  - apply steps_prefix.
  - apply stops_only_on_failure.
  - intros Weights train_epoch evaluate w0.
    pose proof (reference_run Weights train_epoch evaluate w0 _
                  (log_dir_closed (Env.w_clock w0))) as (Hval & _ & _ & Hsteps).
    split; [exact Hval|exact Hsteps].
Qed.

(** *** The log directory *)

Lemma format_int_length (w n : nat) (z : Z) :
  forallb (fun k => Nat.eqb (String.length (format_int true w (Z.of_nat k))) w) (seq 0 n)
  = true ->
  0 <= z < Z.of_nat n -> String.length (format_int true w z) = w.
Proof.
  intros Hall Hz. apply Nat.eqb_eq.
  replace z with (Z.of_nat (Z.to_nat z)) by lia.
  apply (below_forallb _ n Hall). lia.
Qed.

Lemma format_int_length_2 (z : Z) :
  0 <= z <= 99 -> String.length (format_int true 2 z) = 2%nat.
Proof.
  intros Hz. apply (format_int_length 2 100); [vm_compute; reflexivity|lia].
Qed.

Lemma format_int_length_4 (z : Z) :
  0 <= z <= 9999 -> String.length (format_int true 4 z) = 4%nat.
Proof.
  intros Hz. apply (format_int_length 4 (Z.to_nat 10000)); [vm_compute; reflexivity|lia].
Qed.

Lemma valid_datetime_bounds (d : datetime) :
  valid_datetime d = true ->
  1 <= year d <= 9999 /\ 1 <= month d <= 12 /\ 1 <= day d <= 31 /\
  0 <= hour d <= 23 /\ 0 <= minute d <= 59 /\ 0 <= second d <= 59.
Proof.
  unfold valid_datetime. rewrite !andb_true_iff, !Z.leb_le.
  intros Hv. assert (days_in_month (year d) (month d) <= 31).
  { unfold days_in_month. repeat case_match; lia. }
  lia.
Qed.

(** A number formatted without padding is its decimal digits. *)
Lemma format_int_plain (z : Z) : 0 <= z -> format_int false 0 z = digits (Z.to_N z).
Proof.
  intros Hz. unfold format_int.
  replace (z <? 0) with false by (symmetry; apply Z.ltb_ge; lia).
  replace (Z.abs_N z) with (Z.to_N z) by (destruct z; try reflexivity; lia).
  reflexivity.
Qed.

Lemma format_int_plain_inj (z z' : Z) :
  0 <= z -> 0 <= z' -> format_int false 0 z = format_int false 0 z' -> z = z'.
Proof.
  intros Hz Hz' Heq. rewrite !format_int_plain in Heq by assumption.
  apply (f_equal value_of) in Heq. rewrite !value_of_digits in Heq.
  injection Heq as Heq. lia.
Qed.

Lemma stamp_inj (d d' : datetime) :
  valid_datetime d = true -> valid_datetime d' = true ->
  stamp d = stamp d' -> same_second d d' = true.
Proof.
  intros Hv Hv' Heq.
  apply valid_datetime_bounds in Hv, Hv'.
  unfold stamp in Heq.
  assert (String.length (format_int false 0 (year d))
          = String.length (format_int false 0 (year d'))) as Hlen.
  { pose proof (f_equal String.length Heq) as Hl.
    rewrite !length_app_s in Hl. rewrite !format_int_length_2 in Hl by lia.
    change (String.length "-") with 1%nat in Hl. lia. }
  apply app_inj_length in Heq as [Hy Heq]; [|exact Hlen].
  apply format_int_plain_inj in Hy; [|lia|lia].
  apply String.app_inj in Heq.
  repeat match type of Heq with
  | format_int true ?w ?a +:+ "-" +:+ ?r = format_int true ?w ?b +:+ "-" +:+ ?r' =>
      let Hf := fresh "Hf" in
      apply app_inj_length in Heq as [Hf Heq];
        [apply format_int_inj in Hf; [|lia|lia];
         apply String.app_inj in Heq
        |rewrite !format_int_length_2 by lia; reflexivity]
  end.
  apply format_int_inj in Heq; [|lia|lia].
  unfold same_second. rewrite !andb_true_iff, !Z.eqb_eq. tauto.
Qed.

(** C4, as stated, fails: a second run whose clock reading falls in the same
    second as the first run's writes into the same directory and adds no
    subdirectory to [logs]. *)
Lemma C4_same_second_no_new_directory :
  first_reading <> second_reading /\
  valid_datetime first_reading = true /\
  valid_datetime second_reading = true /\
  log_dir second_reading = log_dir first_reading /\
  files_after_second_run = files_after_first_run.
Proof.
  split; [discriminate|]. split; [reflexivity|]. split; [reflexivity|].
  assert (stamp second_reading = stamp first_reading) as Hstamp
    by (vm_compute; reflexivity).
  split; [rewrite !log_dir_closed, Hstamp; reflexivity|].
  unfold files_after_second_run, Env.toy.
  rewrite (proj1 (proj2 (proj2 (reference_run unit _ _ _ _ (log_dir_closed _))))).
  change (Env.w_clock (Env.toy_world second_reading files_after_first_run))
    with second_reading.
  change (Env.w_files (Env.toy_world second_reading files_after_first_run))
    with files_after_first_run.
  rewrite Hstamp.
  assert (files_after_first_run
          = list_to_set (checkpoint_file <$> seq 1 50)
            ∪ ({["./logs/" +:+ stamp first_reading]} ∪ ∅)) as Hfirst.
  { unfold files_after_first_run, Env.toy.
    rewrite (proj1 (proj2 (proj2 (reference_run unit _ _ _ _ (log_dir_closed _))))).
    reflexivity. }
  rewrite Hfirst. clear Hfirst.
  generalize (list_to_set (checkpoint_file <$> seq 1 50) : gset string).
  generalize ("./logs/" +:+ stamp first_reading).
  intros dir names. set_solver.
Qed.

(** C4, amended: the log directory is [./logs/] followed by the clock
    reading in the format [%Y-%m-%d-%H-%M-%S]; a run in the reference
    environment adds that directory (and the checkpoints) to the disk; and two
    valid clock readings that differ to the second give different
    directories. *)
Theorem C4_log_directory :
  (forall now : datetime,
     strftime now stamp_format = Ok (stamp now) /\
     log_dir now = Ok ("./logs/" +:+ stamp now)) /\
  (forall (Weights : Type) train_epoch evaluate (w : Env.world Weights),
     Env.w_files (world (run (Env.nominal Weights train_epoch evaluate) notebook w))
     = list_to_set (checkpoint_file <$> seq 1 50)
       ∪ ({["./logs/" +:+ stamp (Env.w_clock w)]} ∪ Env.w_files w)) /\
  (forall now1 now2 : datetime,
     valid_datetime now1 = true -> valid_datetime now2 = true ->
     same_second now1 now2 = false ->
     log_dir now1 <> log_dir now2) /\
  Forall (fun d => valid_datetime d = true) recorded_readings /\
  log_dir <$> recorded_readings
  = (fun name => Ok ("./logs/" +:+ name))
      <$> Recorded.sort_strings (Recorded.ls_entries "logs" Recorded.stdout_ls).
Proof.
  split; [|split; [|split; [|split]]].
  - intros now. split; [apply strftime_stamp|apply log_dir_closed].
  - intros Weights train_epoch evaluate w.
    exact (proj1 (proj2 (proj2 (reference_run Weights train_epoch evaluate w _
                                  (log_dir_closed (Env.w_clock w)))))).
  - intros now1 now2 Hv1 Hv2 Hdiff Heq.
    rewrite !log_dir_closed in Heq.
    assert ("./logs/" +:+ stamp now1 = "./logs/" +:+ stamp now2) as Heq' by congruence.
    apply String.app_inj in Heq'.
    apply stamp_inj in Heq'; [congruence|assumption|assumption].
  - repeat constructor.
  - vm_compute. reflexivity.
Qed.

Lemma C4_log_directory_witness :
  valid_datetime first_reading = true /\
  valid_datetime (Build_datetime 2020 5 6 8 15 49 0) = true /\
  same_second first_reading (Build_datetime 2020 5 6 8 15 49 0) = false /\
  log_dir first_reading <> log_dir (Build_datetime 2020 5 6 8 15 49 0).
Proof.
  split; [reflexivity|]. split; [reflexivity|]. split; [reflexivity|].
  apply (proj1 (proj2 (proj2 C4_log_directory))); reflexivity.
Defined.

(* ===================================================================== *)
(** ** Further properties *)
(* ===================================================================== *)

Lemma lookup_field_missing (kw : gmap string pyval) (num : numbering) :
  kw !! "epoch" = None -> lookup_field [] kw num "epoch" = (Exn (KeyError "epoch"), num).
Proof. intros Hkw. unfold lookup_field. rewrite Hkw. reflexivity. Qed.

(** X1: what the checkpoint template makes of the keyword arguments it is
    formatted with: the path depends on [epoch] alone (the logged metrics
    never show in it); without an [epoch] keyword the formatting raises
    [KeyError], and with an [epoch] that is a float or a string it raises
    [ValueError]; [ModelCheckpoint] raises [TypeError] when the logs
    themselves carry a key [epoch]. *)
Theorem X1_checkpoint_template (kw : gmap string pyval) :
  (forall z : Z, kw !! "epoch" = Some (PyInt z) ->
     format checkpoint_filepath [] kw
     = Ok ("./checkpoints/model" +:+ format_int true 2 z +:+ ".h5")) /\
  (kw !! "epoch" = None -> format checkpoint_filepath [] kw = Exn (KeyError "epoch")) /\
  (forall f : spec_float, kw !! "epoch" = Some (PyFloat f) ->
     format checkpoint_filepath [] kw = Exn ValueError) /\
  (forall s : string, kw !! "epoch" = Some (PyStr s) ->
     format checkpoint_filepath [] kw = Exn ValueError) /\
  (forall (ep : nat) (logs : list (string * pyval)),
     "epoch" ∈ logs.*1 -> checkpoint_path checkpoint_filepath ep logs = Exn TypeError).
Proof.
  split; [|split; [|split; [|split]]].
  - intros z Hkw. apply format_checkpoint_filepath, Hkw.
  - intros Hkw. unfold format, checkpoint_filepath.
    lazy -[lookup_field format_int String.append].
    rewrite (lookup_field_missing kw Fresh Hkw). reflexivity.
  - intros f Hkw. unfold format, checkpoint_filepath.
    lazy -[lookup_field format_int String.append].
    rewrite (lookup_field_keyword kw Fresh _ Hkw). reflexivity.
  - intros s Hkw. unfold format, checkpoint_filepath.
    lazy -[lookup_field format_int String.append].
    rewrite (lookup_field_keyword kw Fresh _ Hkw). reflexivity.
  - intros ep logs Hin. unfold checkpoint_path.
    rewrite bool_decide_eq_true_2 by exact Hin. reflexivity.
Qed.

Lemma X1_checkpoint_template_witness :
  format checkpoint_filepath []
         (<["epoch" := PyInt 12]> {[ "loss" := PyFloat (S754_zero false) ]})
  = Ok "./checkpoints/model12.h5" /\
  format checkpoint_filepath [] {[ "loss" := PyFloat (S754_zero false) ]}
  = Exn (KeyError "epoch") /\
  format checkpoint_filepath [] {[ "epoch" := PyFloat (S754_zero false) ]} = Exn ValueError /\
  format checkpoint_filepath [] {[ "epoch" := PyStr "12" ]} = Exn ValueError /\
  checkpoint_path checkpoint_filepath 3 [("epoch", PyInt 1)] = Exn TypeError.
Proof.
  split; [|split; [|split; [|split]]].
  - apply (proj1 (X1_checkpoint_template _) 12). reflexivity.
  - apply (proj1 (proj2 (X1_checkpoint_template _))). reflexivity.
  - apply (proj1 (proj2 (proj2 (X1_checkpoint_template _))) (S754_zero false)). reflexivity.
  - apply (proj1 (proj2 (proj2 (proj2 (X1_checkpoint_template _)))) "12"). reflexivity.
  - apply (proj2 (proj2 (proj2 (proj2 (X1_checkpoint_template ∅)))) 3%nat).
    apply list_elem_of_here.
Defined.

(** X2: the notebook's own expressions never raise, so when a run ends with
    an exception, a library call raised it, and that call is the last one the
    run made. *)
Theorem X2_failures_come_from_calls
    (World : Type) (h : forall X : Type, call X -> World -> outcome X * World)
    (w : World) (x : exn) :
  value (run h notebook w) = Exn x ->
  exists (X : Type) (c : call X), last (trace (run h notebook w)) = Some (Failed c x).
Proof.
  unfold_notebook. cbn -[log_dir].
  repeat (match goal with
          | |- context [h ?X ?c ?w0] => destruct (h X c w0) as [[?|?|] ?]
          | |- context [lift (log_dir ?d)] => rewrite (log_dir_closed d)
          end; cbn -[log_dir stamp];
          try (intros [= <-]; eexists _, _; reflexivity);
          try discriminate).
Qed.

Lemma X2_failures_come_from_calls_witness :
  exists (X : Type) (c : call X),
    last (trace (run failing_fit notebook (Env.toy_world a_clock ∅)))
    = Some (Failed c OSError).
Proof.
  apply (X2_failures_come_from_calls _ failing_fit (Env.toy_world a_clock ∅) OSError).
  vm_compute. reflexivity.
Defined.

Ltac pick_answers :=
  match goal with
  | i : Bunch, d : datetime |- _ => exists i, d
  | i : Bunch |- _ => exists i, a_clock
  | _ => exists no_data, a_clock
  end.

(** X3: whatever the environment answers, the calls a run makes, with their
    arguments, are an initial part of one fixed list; only the data set
    passed to [fit] and the time stamp in the log directory vary.  A run that
    returns has made all of them. *)
Theorem X3_calls_follow_the_script
    (World : Type) (h : forall X : Type, call X -> World -> outcome X * World)
    (w : World) :
  exists (iris : Bunch) (now : datetime),
    (entry_call <$> trace (run h notebook w))
      `prefix_of` script iris ("./logs/" +:+ stamp now) /\
    match value (run h notebook w) with
    | Ok _ => entry_call <$> trace (run h notebook w)
              = script iris ("./logs/" +:+ stamp now)
    | _ => True
    end.
Proof.
  unfold_notebook. cbn -[log_dir].
  repeat (match goal with
          | |- context [h ?X ?c ?w0] => destruct (h X c w0) as [[?|?|] ?]
          | |- context [lift (log_dir ?d)] => rewrite (log_dir_closed d)
          end; cbn -[log_dir stamp]);
    pick_answers; (split; [eexists; reflexivity | first [exact I | reflexivity]]).
Qed.

(** X4: whenever [fit] is called, its data are the features and labels of a
    data set the environment returned for [load_iris], the time stamp of its
    log directory is a reading the environment returned for the clock, and
    the other arguments are the literals of the cell. *)
Theorem X4_fit_arguments
    (World : Type) (h : forall X : Type, call X -> World -> outcome X * World)
    (w : World) (e : entry) (a : fit_args) :
  In e (trace (run h notebook w)) -> fit_args_of e = Some a ->
  exists (w1 w1' w2 w2' : World) (iris : Bunch) (now : datetime),
    h Bunch LoadIris w1 = (Ok iris, w1') /\
    h datetime Now w2 = (Ok now, w2') /\
    a = {| x := data iris; y := target iris; batch_size := 32; epochs := 50;
           verbose := 1;
           callbacks := [TensorBoard ("./logs/" +:+ stamp now);
                         ModelCheckpoint "./checkpoints/model{epoch:02d}.h5"
                                         EveryEpoch] |}.
Proof.
  unfold_notebook. cbn -[log_dir].
  repeat (match goal with
          | |- context [h ?X ?c ?w0] => destruct (h X c w0) as [[?|?|] ?] eqn:?
          | |- context [lift (log_dir ?d)] => rewrite (log_dir_closed d)
          end; cbn -[log_dir stamp]);
    intros Hin Hfit;
    repeat (destruct Hin as [<-|Hin]; [try discriminate Hfit|]);
    try contradiction;
    injection Hfit as <-; do 6 eexists; (split; [eassumption|]);
    (split; [eassumption|reflexivity]).
Qed.

Lemma X4_fit_arguments_witness :
  exists (w1 w1' w2 w2' : Env.world unit) (iris : Bunch) (now : datetime),
    failing_fit Bunch LoadIris w1 = (Ok iris, w1') /\
    failing_fit datetime Now w2 = (Ok now, w2') /\
    fit_config (Env.w_iris (Env.toy_world a_clock ∅))
               (nb_callbacks "./logs/2020-05-06-08-06-36")
    = {| x := data iris; y := target iris; batch_size := 32; epochs := 50;
         verbose := 1;
         callbacks := [TensorBoard ("./logs/" +:+ stamp now);
                       ModelCheckpoint "./checkpoints/model{epoch:02d}.h5"
                                       EveryEpoch] |}.
Proof.
  apply (X4_fit_arguments _ failing_fit (Env.toy_world a_clock ∅)
           (Failed (ModelFit (fit_config (Env.w_iris (Env.toy_world a_clock ∅))
                                         (nb_callbacks "./logs/2020-05-06-08-06-36")))
                   OSError)).
  - vm_compute. repeat first [left; reflexivity | right].
  - reflexivity.
Defined.

Lemma log_dir_not_in_checkpoints (s : string) : in_checkpoints ("./logs/" +:+ s) = false.
Proof. reflexivity. Qed.

Lemma reference_run_files
    (Weights : Type)
    (train_epoch : ndarray -> ndarray -> nat -> nat -> Weights -> Weights)
    (evaluate : string -> ndarray -> ndarray -> Weights -> spec_float)
    (w : Env.world Weights) :
  Env.w_files (world (run (Env.nominal Weights train_epoch evaluate) notebook w))
  = list_to_set (checkpoint_file <$> seq 1 50)
    ∪ ({["./logs/" +:+ stamp (Env.w_clock w)]} ∪ Env.w_files w).
Proof.
  exact (proj1 (proj2 (proj2 (reference_run Weights train_epoch evaluate w _
                                (log_dir_closed (Env.w_clock w)))))).
Qed.

Lemma second_run_files
    (Weights : Type)
    (train_epoch : ndarray -> ndarray -> nat -> nat -> Weights -> Weights)
    (evaluate : string -> ndarray -> ndarray -> Weights -> spec_float)
    (w1 : Env.world Weights) (now2 : datetime) :
  Env.w_files (world (run (Env.nominal Weights train_epoch evaluate) notebook
                          (at_clock now2 w1)))
  = list_to_set (checkpoint_file <$> seq 1 50)
    ∪ ({["./logs/" +:+ stamp now2]} ∪ Env.w_files w1).
Proof. exact (reference_run_files Weights train_epoch evaluate (at_clock now2 w1)). Qed.

(** X5: running the notebook a second time in the reference environment adds
    one path to the disk at most, the log directory of the second run: the
    fifty checkpoint files are written again under the same names, so the
    checkpoints of the first run are overwritten and their set does not grow,
    while the log directories accumulate. *)
Theorem X5_second_run
    (Weights : Type)
    (train_epoch : ndarray -> ndarray -> nat -> nat -> Weights -> Weights)
    (evaluate : string -> ndarray -> ndarray -> Weights -> spec_float)
    (w : Env.world Weights) (now2 : datetime) :
  let env := Env.nominal Weights train_epoch evaluate in
  let w1 := world (run env notebook w) in
  let w2 := world (run env notebook (at_clock now2 w1)) in
  Env.w_files w2 = {["./logs/" +:+ stamp now2]} ∪ Env.w_files w1 /\
  Env.w_files w2
  = list_to_set (checkpoint_file <$> seq 1 50)
    ∪ ({["./logs/" +:+ stamp (Env.w_clock w); "./logs/" +:+ stamp now2]} ∪ Env.w_files w) /\
  (forall p : string, in_checkpoints p = true -> p ∈ Env.w_files w2 <-> p ∈ Env.w_files w1).
Proof.
  intros env w1 w2.
  pose proof (reference_run_files Weights train_epoch evaluate w) as H1.
  pose proof (second_run_files Weights train_epoch evaluate w1 now2) as H2.
  fold env in H1, H2. fold w1 in H1. fold w2 in H2.
  assert (forall p : string, in_checkpoints p = true -> p <> "./logs/" +:+ stamp now2) as Hp.
  { intros p Hp ->. rewrite log_dir_not_in_checkpoints in Hp. discriminate. }
  clearbody w2 w1 env.
  revert H1 H2.
  generalize (list_to_set (checkpoint_file <$> seq 1 50) : gset string).
  generalize (Env.w_files w2) (Env.w_files w1) (Env.w_files w).
  generalize ("./logs/" +:+ stamp now2) ("./logs/" +:+ stamp (Env.w_clock w)) Hp.
  clear. intros dir2 dir1 Hp fs2 fs1 fs names -> ->.
  split; [set_solver|]. split; [set_solver|].
  intros p Hin. specialize (Hp p Hin). set_solver.
Qed.

Lemma X5_second_run_witness :
  "./checkpoints/model01.h5"
    ∈ Env.w_files (world (run Env.toy notebook
                         (at_clock second_reading
                            (world (run Env.toy notebook
                                        (Env.toy_world first_reading ∅))))))
  <-> "./checkpoints/model01.h5"
        ∈ Env.w_files (world (run Env.toy notebook (Env.toy_world first_reading ∅))).
Proof.
  apply (proj2 (proj2 (X5_second_run unit (fun _ _ _ _ w => w)
                         (fun _ _ _ _ => S754_zero false)
                         (Env.toy_world first_reading ∅) second_reading))).
  reflexivity.
Defined.

Lemma value_of_one_char (c : ascii) (n : N) :
  value_of (String c EmptyString) = Some n -> (n <= 9)%N.
Proof.
  destruct c as [[] [] [] [] [] [] [] []]; vm_compute; intros [= <-]; discriminate.
Qed.

(** A number with at most one digit is below ten. *)
Lemma digits_short (n : N) : (String.length (digits n) <= 1)%nat -> (n <= 9)%N.
Proof.
  intros Hlen. pose proof (value_of_digits n) as Hv.
  destruct (digits n) as [|c [|c' s]].
  - vm_compute in Hv. injection Hv as <-. lia.
  - exact (value_of_one_char c n Hv).
  - simpl in Hlen. lia.
Qed.

(** From ten on, the two-digit format does not pad. *)
Lemma format_int_wide (z : Z) : 10 <= z -> format_int true 2 z = digits (Z.to_N z).
Proof.
  intros Hz. rewrite format_int_nonneg by lia.
  assert (2 <= String.length (digits (Z.to_N z)))%nat as Hlen.
  { destruct (Nat.le_gt_cases 2 (String.length (digits (Z.to_N z)))) as [|Hlt]; [assumption|].
    assert (Z.to_N z <= 9)%N by (apply digits_short; lia). lia. }
  replace (2 - String.length (digits (Z.to_N z)))%nat with 0%nat by lia.
  reflexivity.
Qed.

Lemma pairs_below (P : nat -> nat -> bool) (n : nat) :
  forallb (fun j => forallb (P j) (seq 0 n)) (seq 0 n) = true ->
  forall j k : nat, (j < n)%nat -> (k < n)%nat -> P j k = true.
Proof.
  intros Hall j k Hj Hk.
  pose proof (below_forallb _ n Hall j Hj) as Hrow. simpl in Hrow.
  exact (below_forallb _ n Hrow k Hk).
Qed.

(** X6: up to epoch 99 the checkpoint files sort by name in the order of
    their epochs, which is how the recorded listing shows them.  The width 2
    of the template is a minimum: from epoch 100 on the number is written in
    full, the name is one character longer, and the order by name is no
    longer the order of the epochs ([model100.h5] sorts before
    [model11.h5]). *)
Theorem X6_checkpoint_order :
  (forall j k : nat, (j < k)%nat -> (k <= 99)%nat ->
     String.ltb (checkpoint_file j) (checkpoint_file k) = true) /\
  (forall k : nat, (10 <= k)%nat ->
     checkpoint_file k = "./checkpoints/model" +:+ digits (N.of_nat k) +:+ ".h5") /\
  String.ltb (checkpoint_file 100) (checkpoint_file 11) = true /\
  Recorded.sort_strings (Recorded.ls_entries "checkpoints" Recorded.stdout_ls)
  = (fun k => "model" +:+ format_int true 2 (Z.of_nat k) +:+ ".h5") <$> seq 1 50.
Proof.
  split; [|split; [|split]].
  - intros j k Hjk Hk.
    pose proof (pairs_below
      (fun j k => implb (Nat.ltb j k)
                        (String.ltb (checkpoint_file j) (checkpoint_file k))) 100) as Hall.
    specialize (Hall ltac:(vm_compute; reflexivity) j k ltac:(lia) ltac:(lia)).
    simpl in Hall. replace (Nat.ltb j k) with true in Hall; [exact Hall|].
    symmetry. apply Nat.ltb_lt. exact Hjk.
  - intros k Hk. unfold checkpoint_file.
    rewrite format_int_wide by lia.
    replace (Z.to_N (Z.of_nat k)) with (N.of_nat k) by lia. reflexivity.
  - vm_compute. reflexivity.
  - vm_compute. reflexivity.
Qed.

Lemma X6_checkpoint_order_witness :
  String.ltb (checkpoint_file 9) (checkpoint_file 10) = true /\
  checkpoint_file 123 = "./checkpoints/model123.h5".
Proof.
  split.
  - apply (proj1 X6_checkpoint_order 9%nat 10%nat); lia.
  - rewrite (proj1 (proj2 X6_checkpoint_order) 123%nat) by lia. reflexivity.
Defined.

(** *** The order of the names *)

Lemma compare_refl_s (s : string) : String.compare s s = Eq.
Proof.
  induction s as [|c s IH]; [reflexivity|]. simpl.
  unfold Ascii.compare. rewrite N.compare_refl. exact IH.
Qed.

(** Comparing two concatenations whose first parts have the same length:
    the first parts decide, unless they are equal. *)
Lemma compare_app_s (a a' b b' : string) :
  String.length a = String.length a' ->
  String.compare (a +:+ b) (a' +:+ b')
  = match String.compare a a' with
    | Eq => String.compare b b'
    | r => r
    end.
Proof.
  revert a'. induction a as [|c a IH]; intros [|c' a'] Hlen; try discriminate.
  - reflexivity.
  - rewrite !s_app_cons. simpl. destruct (Ascii.compare c c'); [|reflexivity..].
    apply IH. simpl in Hlen. lia.
Qed.

Lemma format_int_mono (w n : nat) :
  forallb (fun k => String.leb (format_int true w (Z.of_nat k))
                               (format_int true w (Z.of_nat (S k)))) (seq 0 n) = true ->
  forall a b : nat, (a <= b)%nat -> (b <= n)%nat ->
    String.le (format_int true w (Z.of_nat a)) (format_int true w (Z.of_nat b)).
Proof.
  intros Hadj a b Hab. induction Hab as [|b Hab IH]; intros Hb.
  - reflexivity.
  - transitivity (format_int true w (Z.of_nat b)); [apply IH; lia|].
    unfold String.le. apply Is_true_true.
    exact (below_forallb _ n Hadj b ltac:(lia)).
Qed.

(** Zero-padded numbers of one width compare as strings the way they compare
    as numbers. *)
Lemma format_int_compare (w n : nat) (x y : Z) :
  forallb (fun k => String.leb (format_int true w (Z.of_nat k))
                               (format_int true w (Z.of_nat (S k)))) (seq 0 n) = true ->
  0 <= x <= Z.of_nat n -> 0 <= y <= Z.of_nat n ->
  String.compare (format_int true w x) (format_int true w y) = (x ?= y).
Proof.
  intros Hadj Hx Hy.
  assert (forall a b : Z, 0 <= a -> a < b -> b <= Z.of_nat n ->
            String.compare (format_int true w a) (format_int true w b) = Lt) as Hlt.
  { intros a b Ha Hab Hb.
    pose proof (format_int_mono w n Hadj (Z.to_nat a) (Z.to_nat b) ltac:(lia) ltac:(lia))
      as Hle.
    rewrite !Z2Nat.id in Hle by lia.
    unfold String.le in Hle. apply Is_true_true in Hle. unfold String.leb in Hle.
    destruct (String.compare (format_int true w a) (format_int true w b)) eqn:Hc.
    - apply String.compare_eq_iff in Hc. apply format_int_inj in Hc; lia.
    - reflexivity.
    - discriminate. }
  destruct (Z.compare_spec x y) as [->|Hxy|Hxy].
  - apply compare_refl_s.
  - apply Hlt; lia.
  - rewrite String.compare_antisym, Hlt by lia. reflexivity.
Qed.

Lemma format_int_compare_2 (x y : Z) :
  0 <= x <= 99 -> 0 <= y <= 99 ->
  String.compare (format_int true 2 x) (format_int true 2 y) = (x ?= y).
Proof.
  intros Hx Hy. apply (format_int_compare 2 99); [vm_compute; reflexivity|lia|lia].
Qed.

Lemma format_int_compare_4 (x y : Z) :
  0 <= x <= 9999 -> 0 <= y <= 9999 ->
  String.compare (format_int true 4 x) (format_int true 4 y) = (x ?= y).
Proof.
  intros Hx Hy.
  apply (format_int_compare 4 (Z.to_nat 9999)); [vm_compute; reflexivity|lia|lia].
Qed.

Lemma compare_dash (r r' : string) :
  String.compare ("-" +:+ r) ("-" +:+ r') = String.compare r r'.
Proof. reflexivity. Qed.

(** From the year 1000 on, the unpadded year has four digits. *)
Lemma format_int_year (z : Z) :
  1000 <= z <= 9999 -> format_int false 0 z = format_int true 4 z.
Proof.
  intros Hz. apply String.eqb_eq.
  replace z with (Z.of_nat (Z.to_nat z)) by lia.
  pose proof (below_forallb
                (fun k => implb (1000 <=? Z.of_nat k)
                                (String.eqb (format_int false 0 (Z.of_nat k))
                                            (format_int true 4 (Z.of_nat k))))
                (Z.to_nat 10000) ltac:(vm_compute; reflexivity)
                (Z.to_nat z) ltac:(lia)) as Hk.
  cbv beta in Hk.
  replace (1000 <=? Z.of_nat (Z.to_nat z)) with true in Hk; [exact Hk|].
  symmetry. apply Z.leb_le. lia.
Qed.

Lemma stamp_compare (d d' : datetime) :
  valid_datetime d = true -> valid_datetime d' = true ->
  1000 <= year d -> 1000 <= year d' ->
  String.compare (stamp d) (stamp d') = chron_compare d d'.
Proof.
  intros Hv Hv' Hy Hy'. apply valid_datetime_bounds in Hv, Hv'.
  unfold stamp, chron_compare.
  rewrite !format_int_year by lia.
  rewrite compare_app_s by (rewrite !format_int_length_4 by lia; reflexivity).
  rewrite format_int_compare_4 by lia.
  destruct (year d ?= year d'); [|reflexivity..]. rewrite compare_dash.
  do 4 (rewrite compare_app_s by (rewrite !format_int_length_2 by lia; reflexivity);
        rewrite format_int_compare_2 by lia;
        match goal with |- match ?c with _ => _ end = _ => destruct c end;
        [|reflexivity..]; rewrite compare_dash).
  apply format_int_compare_2; lia.
Qed.

(** X7: for valid clock readings from the year 1000 on, the name of the log
    directory has a fixed length, and the names compare as strings the way
    the readings compare in time, to the second: a listing sorted by name
    shows the runs in the order of their clock readings.  Below the year 1000
    the year is not padded, so the name is shorter and the two orders part:
    the last second of the year 999 sorts after the first of the year
    1000. *)
Theorem X7_log_directories_sort_by_time :
  (forall (d d' : datetime) (dir dir' : string),
     valid_datetime d = true -> valid_datetime d' = true ->
     1000 <= year d -> 1000 <= year d' ->
     log_dir d = Ok dir -> log_dir d' = Ok dir' ->
     String.length dir = 26%nat /\
     String.compare dir dir' = chron_compare d d') /\
  valid_datetime (Build_datetime 999 12 31 23 59 59 0) = true /\
  log_dir (Build_datetime 999 12 31 23 59 59 0) = Ok "./logs/999-12-31-23-59-59" /\
  log_dir (Build_datetime 1000 1 1 0 0 0 0) = Ok "./logs/1000-01-01-00-00-00" /\
  chron_compare (Build_datetime 999 12 31 23 59 59 0) (Build_datetime 1000 1 1 0 0 0 0)
  = Lt /\
  String.compare "./logs/999-12-31-23-59-59" "./logs/1000-01-01-00-00-00" = Gt.
Proof.
  split; [|repeat split; vm_compute; reflexivity].
  intros d d' dir dir' Hv Hv' Hy Hy' Hd Hd'.
  rewrite log_dir_closed in Hd, Hd'.
  assert (dir = "./logs/" +:+ stamp d) as -> by congruence.
  assert (dir' = "./logs/" +:+ stamp d') as -> by congruence.
  split.
  - pose proof (valid_datetime_bounds d Hv) as Hb.
    unfold stamp. rewrite format_int_year by lia. rewrite !length_app_s.
    rewrite format_int_length_4, !format_int_length_2 by lia. reflexivity.
  - rewrite compare_app_s by reflexivity. simpl. apply stamp_compare; assumption.
Qed.

Lemma X7_log_directories_sort_by_time_witness :
  String.length "./logs/2020-05-06-08-06-36" = 26%nat /\
  String.compare "./logs/2020-05-06-08-06-36" "./logs/2020-05-06-12-39-28"
  = chron_compare (Build_datetime 2020 5 6 8 6 36 0) (Build_datetime 2020 5 6 12 39 28 0).
Proof.
  apply (proj1 X7_log_directories_sort_by_time
           (Build_datetime 2020 5 6 8 6 36 0) (Build_datetime 2020 5 6 12 39 28 0));
    first [reflexivity | simpl; lia].
Defined.

(** *** The history [fit] returns *)

Section HistoryFacts.
Variable Weights : Type.
Variable train_epoch : ndarray -> ndarray -> nat -> nat -> Weights -> Weights.
Variable evaluate : string -> ndarray -> ndarray -> Weights -> spec_float.

Lemma history_step (n ep : nat) (a : fit_args) (w : Weights) (h : History) :
  history_of_length n (history h) ->
  history_of_length (S n)
    (history (History_on_epoch_end ep (epoch_logs Weights evaluate compile_config a w) h)).
Proof.
  intros (Hloss & Hacc & Hother).
  unfold History_on_epoch_end, epoch_logs. cbn [history fmap list_fmap c_metrics
    compile_config metric_name foldl fst snd].
  split; [|split].
  - rewrite lookup_insert_ne by discriminate. rewrite lookup_insert_eq. cbn.
    rewrite length_app. cbn. lia.
  - rewrite lookup_insert_eq. cbn. rewrite lookup_insert_ne by discriminate.
    rewrite length_app. cbn. lia.
  - intros k Hk1 Hk2. rewrite !lookup_insert_ne by congruence. apply Hother; assumption.
Qed.

Lemma fit_loop_history (a : fit_args) (dir : string) (n ep k : nat)
    (st : train_state Weights) :
  callbacks a = nb_callbacks dir ->
  stop_training st = false ->
  history_of_length k (history (hist st)) ->
  exists st' : train_state Weights,
    fit_loop Weights train_epoch evaluate compile_config a n ep st = Ok st' /\
    stop_training st' = false /\
    history_of_length (k + n) (history (hist st')).
Proof.
  intros Hcb. revert ep k st. induction n as [|n IH]; intros ep k st Hstop Hh.
  - exists st. simpl. rewrite Nat.add_0_r. auto.
  - cbn [fit_loop]. rewrite Hstop, Hcb. cbn [nb_callbacks each_callback on_epoch_end].
    rewrite checkpoint_path_closed by apply epoch_not_logged.
    cbn [mbind outcome_bind obind mret].
    match goal with |- context [fit_loop _ _ _ _ a n (S ep) ?s] =>
      destruct (IH (S ep) (S k) s) as (st' & Hrun & Hstop' & Hh') end.
    + reflexivity.
    + cbn [hist write_files]. apply history_step. exact Hh.
    + exists st'. split; [exact Hrun|]. split; [exact Hstop'|].
      replace (k + S n)%nat with (S k + n)%nat by lia. exact Hh'.
Qed.

Lemma fit_history (iris : Bunch) (dir : string) (w0 : Weights) (fs : gset string) :
  exists st : train_state Weights,
    fit Weights train_epoch evaluate compiled_model (fit_config iris (nb_callbacks dir))
        w0 fs = Ok st /\
    history_of_length 50 (history (hist st)).
Proof.
  unfold fit. cbn [compiled compiled_model compile callbacks fit_config nb_callbacks
    each_callback on_train_begin mbind outcome_bind obind].
  match goal with |- context [fit_loop _ _ _ ?c ?a ?n 0 ?s] =>
    destruct (fit_loop_history a dir 50 0 0 s eq_refl eq_refl) as (st & Hrun & _ & Hh) end.
  - cbn. repeat split; intros; apply lookup_empty.
  - exists st. split; [exact Hrun|exact Hh].
Qed.

End HistoryFacts.

(** X8: the history that [fit] returns for the notebook holds fifty values
    of the loss and fifty of the one metric the model was compiled with, under
    the keys [loss] and [sparse_categorical_accuracy], and nothing else; they
    are the two quantities every recorded progress line reports. *)
Theorem X8_history
    (Weights : Type)
    (train_epoch : ndarray -> ndarray -> nat -> nat -> Weights -> Weights)
    (evaluate : string -> ndarray -> ndarray -> Weights -> spec_float)
    (iris : Bunch) (dir : string) (w0 : Weights) (fs : gset string) :
  (exists (st : train_state Weights) (losses accuracies : list pyval),
     fit Weights train_epoch evaluate compiled_model (fit_config iris (nb_callbacks dir))
         w0 fs = Ok st /\
     history (hist st) !! "loss" = Some losses /\ length losses = 50%nat /\
     history (hist st) !! "sparse_categorical_accuracy" = Some accuracies /\
     length accuracies = 50%nat /\
     dom (history (hist st)) = ({["loss"; "sparse_categorical_accuracy"]} : gset string)) /\
  length (filter (fun l => Recorded.contains " - loss: " l = true
                           /\ Recorded.contains " - sparse_categorical_accuracy: " l = true)
                 Recorded.stdout_fit) = 50%nat.
Proof.
  split; [|vm_compute; reflexivity].
  destruct (fit_history Weights train_epoch evaluate iris dir w0 fs)
    as (st & Hrun & Hloss & Hacc & Hother).
  destruct (history (hist st) !! "loss") as [losses|] eqn:Hl; [|discriminate].
  destruct (history (hist st) !! "sparse_categorical_accuracy") as [accs|] eqn:Ha;
    [|discriminate].
  exists st, losses, accs.
  split; [exact Hrun|]. split; [exact Hl|]. split; [exact Hloss|].
  split; [exact Ha|]. split; [exact Hacc|].
  apply set_eq. intros k. rewrite elem_of_dom, elem_of_union, !elem_of_singleton.
  destruct (decide (k = "loss")) as [->|Hk1]; [rewrite Hl; split; eauto|].
  destruct (decide (k = "sparse_categorical_accuracy")) as [->|Hk2];
    [rewrite Ha; split; eauto|].
  rewrite Hother by assumption. split; [intros [? [=]]|intros [?|?]; contradiction].
Qed.

(** X9: when a call of the first cell fails (an import, the plotting set-up,
    the version print), the run has made no call beyond that cell: no data is
    loaded, no model built, nothing trained.  This holds for the imports of
    [numpy], [pandas], [matplotlib], [confusion_matrix] and [pydot] too,
    although no later cell mentions these names. *)
Theorem X9_failed_setup_stops_everything :
  (forall (World : Type) (h : forall X : Type, call X -> World -> outcome X * World)
          (w : World) (X : Type) (c : call X) (x : exn),
     In (Failed c x) (trace (run h notebook w)) -> step_of c = Setup ->
     Forall (fun e => entry_step e = Setup) (trace (run h notebook w))) /\
  never_mentioned unused_imports later_cells = true.
Proof.
  split; [|vm_compute; reflexivity].
  intros World h w X c x. unfold_notebook. cbn -[log_dir].
  repeat (match goal with
          | |- context [h ?Y ?c0 ?w0] => destruct (h Y c0 w0) as [[?|?|] ?]
          | |- context [lift (log_dir ?d)] => rewrite (log_dir_closed d)
          end; cbn -[log_dir stamp]);
    intros Hin Hstep;
    first
      [ solve [repeat constructor]
      | exfalso;
        repeat (destruct Hin as [Heq|Hin];
                [first [discriminate Heq
                       | apply (f_equal entry_step) in Heq; simpl in Heq; congruence]|]);
        contradiction ].
Qed.

Lemma X9_failed_setup_stops_everything_witness :
  Forall (fun e => entry_step e = Setup)
         (trace (run (fun X (c : call X) (w : unit) =>
                        match c in call X return outcome X * unit with
                        | Import "pydot" _ => (Exn (ImportError "pydot"), w)
                        | LoadIris => (Ok no_data, w)
                        | Now => (Ok a_clock, w)
                        | ModelFit _ => (Ok {| epoch := []; history := ∅ |}, w)
                        | _ => (Ok tt, w)
                        end) notebook tt)).
Proof.
  apply (proj1 X9_failed_setup_stops_everything _ _ tt unit (Import "pydot" "pydot")
           (ImportError "pydot")).
  - vm_compute. repeat first [left; reflexivity | right].
  - reflexivity.
Defined.
